(** * gcla: the GitHub webhook subscription client and the webhook receiver

    A shallow embedding of [SubscribeToRepo], [doHTTPReq],
    [SetHTTPRoundTripper], [httpClient], [NewClientFromEnv] (package gcla)
    and of [parseRequest] and [pong] (cmd/gcla-server), together with the
    parts of the Go standard library they call: [encoding/json],
    [net/http], [net/url], [errors], [fmt] and [reflect.DeepEqual].

    Go strings and byte slices are Rocq [string]s (sequences of bytes).
    A Go pointer that may be nil is an [option]; a Go slice is an
    [option (list _)], so that the nil slice and the empty slice differ as
    they do for [reflect.DeepEqual]. *)

From Stdlib Require Import String Ascii ZArith List Bool Lia.
From stdpp Require Import base option gmap strings.
Import ListNotations.

Local Open Scope string_scope.
Local Open Scope Z_scope.

(* ===================================================================== *)
(** ** Bytes and strings *)
(* ===================================================================== *)

Definition byte_val (c : ascii) : Z := Z.of_N (N_of_ascii c).

Definition byte_of (z : Z) : ascii := ascii_of_N (Z.to_N (z mod 256)).

Definition byte_eqb (a b : ascii) : bool := Ascii.eqb a b.

Definition in_range (lo hi c : ascii) : bool :=
  (byte_val lo <=? byte_val c) && (byte_val c <=? byte_val hi).

Definition isDigit (c : ascii) : bool := in_range "0" "9" c.

Definition ishex (c : ascii) : bool :=
  in_range "0" "9" c || in_range "a" "f" c || in_range "A" "F" c.

Definition hexdigit (n : Z) : ascii :=
  if n <? 10 then byte_of (48 + n) else byte_of (87 + n).

Definition unhex (c : ascii) : Z :=
  if in_range "0" "9" c then byte_val c - 48
  else if in_range "a" "f" c then byte_val c - 87
  else if in_range "A" "F" c then byte_val c - 55
  else 0.

Definition str1 (c : ascii) : string := String c EmptyString.

Fixpoint string_of_bytes (l : list ascii) : string :=
  match l with
  | [] => EmptyString
  | c :: r => String c (string_of_bytes r)
  end.

Fixpoint bytes_of_string (s : string) : list ascii :=
  match s with
  | EmptyString => []
  | String c r => c :: bytes_of_string r
  end.

(** [strings.Contains s sub]. *)
Fixpoint strings_Contains (s sub : string) : bool :=
  String.prefix sub s ||
  match s with
  | EmptyString => false
  | String _ r => strings_Contains r sub
  end.

(** [strings.Cut s sep] for a one-byte separator: the text before the first
    [sep], the text after it, and whether [sep] occurs. *)
Fixpoint strings_Cut (s : string) (sep : ascii) : string * string * bool :=
  match s with
  | EmptyString => (EmptyString, EmptyString, false)
  | String c r =>
      if byte_eqb c sep then (EmptyString, r, true)
      else let '(a, b, f) := strings_Cut r sep in (String c a, b, f)
  end.

(* ===================================================================== *)
(** ** Errors *)
(* ===================================================================== *)

(** The dynamic types of the [error] values that reach this program. *)
Inductive error : Type :=
  | errorString (s : string)
      (** [errors.New], [fmt.Errorf] *)
  | SyntaxError (msg : string) (Offset : Z)
      (** [*json.SyntaxError] *)
  | UnmarshalTypeError (Value : string) (Type_ : string) (Struct Field : string)
      (** [*json.UnmarshalTypeError] *)
  | EscapeError (s : string)
      (** [url.EscapeError] *)
  | url_Error (Op URL : string) (Err : error)
      (** [*url.Error] *)
  | foreignError (text : string).
      (** any error made outside this program: by a transport or by a
          reader of a body *)

Definition errors_New (text : string) : error := errorString text.

(** [strconv.Quote] restricted to what the program quotes: texts free of
    quotes, backslashes and bytes outside printable ASCII are wrapped in
    double quotes unchanged. *)
Definition strconv_Quote (s : string) : string :=
  String "034" s +:+ String "034" EmptyString.

(** [err.Error()]. *)
Fixpoint Error (e : error) : string :=
  match e with
  | errorString s => s
  | SyntaxError msg _ => msg
  | UnmarshalTypeError v t st f =>
      if (String.eqb st EmptyString && String.eqb f EmptyString)%bool
      then "json: cannot unmarshal " +:+ v +:+ " into Go value of type " +:+ t
      else "json: cannot unmarshal " +:+ v +:+ " into Go struct field "
           +:+ st +:+ "." +:+ f +:+ " of type " +:+ t
  | EscapeError s => "invalid URL escape " +:+ strconv_Quote s
  | url_Error op u err => op +:+ " " +:+ strconv_Quote u +:+ ": " +:+ Error err
  | foreignError text => text
  end.

(** A Go result pair [(T, error)] in which exactly one side is set. *)
Inductive result (A : Type) : Type :=
  | Ok (a : A)
  | Err (e : error).
Arguments Ok {A} a.
Arguments Err {A} e.

#[global] Instance result_ret : MRet result := fun _ a => Ok a.

#[global] Instance result_bind : MBind result := fun _ _ k r =>
  match r with
  | Ok a => k a
  | Err e => Err e
  end.

(* ===================================================================== *)
(** ** unicode/utf8 *)
(* ===================================================================== *)

Module utf8.

Definition RuneError : Z := 65533.
Definition RuneSelf : Z := 128.

Definition is_cont (lo hi : Z) (c : ascii) : bool :=
  (lo <=? byte_val c) && (byte_val c <=? hi).

(** For a leading byte: the length of its sequence and the range
    accepted for the second byte (the tables [first] and
    [acceptRanges]); [None] for a byte that cannot start a sequence. *)
Definition first (p0 : Z) : option (Z * (Z * Z)) :=
  if p0 <? 194 then None
  else if p0 <=? 223 then Some (2, (128, 191))
  else if p0 =? 224 then Some (3, (160, 191))
  else if p0 <=? 236 then Some (3, (128, 191))
  else if p0 =? 237 then Some (3, (128, 159))
  else if p0 <=? 239 then Some (3, (128, 191))
  else if p0 =? 240 then Some (4, (144, 191))
  else if p0 <=? 243 then Some (4, (128, 191))
  else if p0 =? 244 then Some (4, (128, 143))
  else None.

(** [utf8.DecodeRune]: the rune at the head of [p], its width, and the
    text after it. An ill-formed head decodes to [RuneError] of
    width 1. *)
Definition DecodeRune (p : string) : Z * Z * string :=
  match p with
  | EmptyString => (RuneError, 0, EmptyString)
  | String c0 r0 =>
      let p0 := byte_val c0 in
      if p0 <? RuneSelf then (p0, 1, r0)
      else
        match first p0 with
        | None => (RuneError, 1, r0)
        | Some (sz, (lo, hi)) =>
            match r0 with
            | String c1 r1 =>
                if negb (is_cont lo hi c1) then (RuneError, 1, r0)
                else if sz =? 2 then
                  (Z.lor (Z.shiftl (Z.land p0 31) 6) (Z.land (byte_val c1) 63),
                   2, r1)
                else
                  match r1 with
                  | String c2 r2 =>
                      if negb (is_cont 128 191 c2) then (RuneError, 1, r0)
                      else if sz =? 3 then
                        (Z.lor (Z.shiftl (Z.land p0 15) 12)
                           (Z.lor (Z.shiftl (Z.land (byte_val c1) 63) 6)
                              (Z.land (byte_val c2) 63)), 3, r2)
                      else
                        match r2 with
                        | String c3 r3 =>
                            if negb (is_cont 128 191 c3)
                            then (RuneError, 1, r0)
                            else
                              (Z.lor (Z.shiftl (Z.land p0 7) 18)
                                 (Z.lor (Z.shiftl (Z.land (byte_val c1) 63) 12)
                                    (Z.lor (Z.shiftl (Z.land (byte_val c2) 63) 6)
                                       (Z.land (byte_val c3) 63))), 4, r3)
                        | EmptyString => (RuneError, 1, r0)
                        end
                  | EmptyString => (RuneError, 1, r0)
                  end
            | EmptyString => (RuneError, 1, r0)
            end
        end
  end.

Definition ValidRune (r : Z) : bool :=
  ((0 <=? r) && (r <? 55296)) || ((57343 <? r) && (r <=? 1114111)).

(** [utf8.EncodeRune]: surrogates and runes out of range are written
    as [RuneError]. *)
Definition EncodeRune (r : Z) : string :=
  let r := if ValidRune r then r else RuneError in
  if r <? 128 then str1 (byte_of r)
  else if r <? 2048 then
    String (byte_of (Z.lor 192 (Z.shiftr r 6)))
      (str1 (byte_of (Z.lor 128 (Z.land r 63))))
  else if r <? 65536 then
    String (byte_of (Z.lor 224 (Z.shiftr r 12)))
      (String (byte_of (Z.lor 128 (Z.land (Z.shiftr r 6) 63)))
         (str1 (byte_of (Z.lor 128 (Z.land r 63)))))
  else
    String (byte_of (Z.lor 240 (Z.shiftr r 18)))
      (String (byte_of (Z.lor 128 (Z.land (Z.shiftr r 12) 63)))
         (String (byte_of (Z.lor 128 (Z.land (Z.shiftr r 6) 63)))
            (str1 (byte_of (Z.lor 128 (Z.land r 63)))))).

End utf8.

(** [strconv.IsPrint] on the runes below 256. *)
Definition strconv_IsPrint (r : Z) : bool :=
  ((32 <=? r) && (r <=? 126)) || ((161 <=? r) && (r <=? 255) && negb (r =? 173)).

(** The text [strconv.Quote(string(c))] puts between its quotes, for a
    byte [c] taken as a rune. *)
Definition quoted_rune (c : ascii) : string :=
  let r := byte_val c in
  if byte_eqb c "\" then "\\"
  else if byte_eqb c "034" then String "\" (str1 "034")
  else if strconv_IsPrint r then utf8.EncodeRune r
  else if r =? 7 then "\a"
  else if r =? 8 then "\b"
  else if r =? 12 then "\f"
  else if r =? 10 then "\n"
  else if r =? 13 then "\r"
  else if r =? 9 then "\t"
  else if r =? 11 then "\v"
  else if (r <? 32) || (r =? 127) then
    String "\" (String "x" (String (hexdigit (Z.shiftr r 4))
      (str1 (hexdigit (Z.land r 15)))))
  else
    String "\" (String "u" (String "0" (String "0"
      (String (hexdigit (Z.shiftr r 4)) (str1 (hexdigit (Z.land r 15))))))).

(* ===================================================================== *)
(** ** encoding/json: the scanner that checks a text *)
(* ===================================================================== *)

Module json.

(** The step functions of [scanner.go], one constructor each. *)
Inductive stepfn : Type :=
  | stateBeginValueOrEmpty | stateBeginValue | stateBeginStringOrEmpty
  | stateBeginString | stateEndValue | stateEndTop
  | stateInString | stateInStringEsc
  | stateInStringEscU | stateInStringEscU1 | stateInStringEscU12
  | stateInStringEscU123
  | stateNeg | state1 | state0 | stateDot | stateDot0
  | stateE | stateESign | stateE0
  | stateT | stateTr | stateTru
  | stateF | stateFa | stateFal | stateFals
  | stateN | stateNu | stateNul
  | stateError.

Inductive pstate : Type := parseObjectKey | parseObjectValue | parseArrayValue.

Inductive opcode : Type :=
  | scanContinue | scanBeginLiteral | scanBeginObject | scanObjectKey
  | scanObjectValue | scanEndObject | scanBeginArray | scanArrayValue
  | scanEndArray | scanSkipSpace | scanEnd | scanError.

(** [parseState] is a stack; its top is the head of the list. *)
Record scanner : Type := mkScanner {
  step : stepfn;
  endTop : bool;
  parseState : list pstate;
  err : option error;
  bytes : Z
}.

Definition maxNestingDepth : Z := 10000.

Definition set_step (s : scanner) (f : stepfn) : scanner :=
  mkScanner f (endTop s) (parseState s) (err s) (bytes s).

Definition set_top (s : scanner) (p : pstate) : scanner :=
  mkScanner (step s) (endTop s)
    (match parseState s with [] => [] | _ :: r => p :: r end)
    (err s) (bytes s).

Definition quoteChar (c : ascii) : string :=
  if byte_eqb c "'" then "'\''"
  else if byte_eqb c "034" then String "'" (String "034" "'")
  else "'" +:+ quoted_rune c +:+ "'".

(** [s.error(c, context)] *)
Definition error_at (s : scanner) (c : ascii) (context : string)
  : scanner * opcode :=
  (mkScanner stateError (endTop s) (parseState s)
     (Some (SyntaxError
              ("invalid character " +:+ quoteChar c +:+ " " +:+ context)
              (bytes s)))
     (bytes s),
   scanError).

Definition pushParseState (s : scanner) (c : ascii) (newParseState : pstate)
    (successState : opcode) : scanner * opcode :=
  let s' := mkScanner (step s) (endTop s) (newParseState :: parseState s)
              (err s) (bytes s) in
  if Z.of_nat (length (parseState s')) <=? maxNestingDepth
  then (s', successState)
  else error_at s' c "exceeded max depth".

Definition popParseState (s : scanner) : scanner :=
  match parseState s with
  | [] => s
  | _ :: r =>
      match r with
      | [] => mkScanner stateEndTop true r (err s) (bytes s)
      | _ => mkScanner stateEndValue (endTop s) r (err s) (bytes s)
      end
  end.

Definition isSpace (c : ascii) : bool :=
  byte_eqb c " " || byte_eqb c "009" || byte_eqb c "013" || byte_eqb c "010".

Definition do_stateEndTop (s : scanner) (c : ascii) : scanner * opcode :=
  if negb (isSpace c)
  then (fst (error_at s c "after top-level value"), scanEnd)
  else (s, scanEnd).

Definition do_stateEndValue (s : scanner) (c : ascii) : scanner * opcode :=
  match parseState s with
  | [] =>
      do_stateEndTop
        (mkScanner stateEndTop true (parseState s) (err s) (bytes s)) c
  | ps :: _ =>
      if isSpace c then (set_step s stateEndValue, scanSkipSpace)
      else
        match ps with
        | parseObjectKey =>
            if byte_eqb c ":"
            then (set_step (set_top s parseObjectValue) stateBeginValue,
                  scanObjectKey)
            else error_at s c "after object key"
        | parseObjectValue =>
            if byte_eqb c ","
            then (set_step (set_top s parseObjectKey) stateBeginString,
                  scanObjectValue)
            else if byte_eqb c "}" then (popParseState s, scanEndObject)
            else error_at s c "after object key:value pair"
        | parseArrayValue =>
            if byte_eqb c ","
            then (set_step s stateBeginValue, scanArrayValue)
            else if byte_eqb c "]" then (popParseState s, scanEndArray)
            else error_at s c "after array element"
        end
  end.

Definition do_stateBeginValue (s : scanner) (c : ascii) : scanner * opcode :=
  if isSpace c then (s, scanSkipSpace)
  else if byte_eqb c "{"
  then pushParseState (set_step s stateBeginStringOrEmpty) c parseObjectKey
         scanBeginObject
  else if byte_eqb c "["
  then pushParseState (set_step s stateBeginValueOrEmpty) c parseArrayValue
         scanBeginArray
  else if byte_eqb c "034" then (set_step s stateInString, scanBeginLiteral)
  else if byte_eqb c "-" then (set_step s stateNeg, scanBeginLiteral)
  else if byte_eqb c "0" then (set_step s state0, scanBeginLiteral)
  else if byte_eqb c "t" then (set_step s stateT, scanBeginLiteral)
  else if byte_eqb c "f" then (set_step s stateF, scanBeginLiteral)
  else if byte_eqb c "n" then (set_step s stateN, scanBeginLiteral)
  else if in_range "1" "9" c then (set_step s state1, scanBeginLiteral)
  else error_at s c "looking for beginning of value".

Definition do_stateBeginString (s : scanner) (c : ascii) : scanner * opcode :=
  if isSpace c then (s, scanSkipSpace)
  else if byte_eqb c "034" then (set_step s stateInString, scanBeginLiteral)
  else error_at s c "looking for beginning of object key string".

(** The next step on a byte that must be [want]. *)
Definition expect (s : scanner) (c want : ascii) (next : stepfn)
    (context : string) : scanner * opcode :=
  if byte_eqb c want then (set_step s next, scanContinue)
  else error_at s c context.

Definition do_state0 (s : scanner) (c : ascii) : scanner * opcode :=
  if byte_eqb c "." then (set_step s stateDot, scanContinue)
  else if byte_eqb c "e" || byte_eqb c "E"
  then (set_step s stateE, scanContinue)
  else do_stateEndValue s c.

Definition do_stateESign (s : scanner) (c : ascii) : scanner * opcode :=
  if isDigit c then (set_step s stateE0, scanContinue)
  else error_at s c "in exponent of numeric literal".

Definition hex_step (s : scanner) (c : ascii) (next : stepfn)
  : scanner * opcode :=
  if ishex c then (set_step s next, scanContinue)
  else error_at s c "in \u hexadecimal character escape".

(** [s.step(s, c)] *)
Definition do_step (s : scanner) (c : ascii) : scanner * opcode :=
  match step s with
  | stateBeginValueOrEmpty =>
      if isSpace c then (s, scanSkipSpace)
      else if byte_eqb c "]" then do_stateEndValue s c
      else do_stateBeginValue s c
  | stateBeginValue => do_stateBeginValue s c
  | stateBeginStringOrEmpty =>
      if isSpace c then (s, scanSkipSpace)
      else if byte_eqb c "}"
      then do_stateEndValue (set_top s parseObjectValue) c
      else do_stateBeginString s c
  | stateBeginString => do_stateBeginString s c
  | stateEndValue => do_stateEndValue s c
  | stateEndTop => do_stateEndTop s c
  | stateInString =>
      if byte_eqb c "034" then (set_step s stateEndValue, scanContinue)
      else if byte_eqb c "\" then (set_step s stateInStringEsc, scanContinue)
      else if byte_val c <? 32 then error_at s c "in string literal"
      else (s, scanContinue)
  | stateInStringEsc =>
      if byte_eqb c "b" || byte_eqb c "f" || byte_eqb c "n" || byte_eqb c "r"
         || byte_eqb c "t" || byte_eqb c "\" || byte_eqb c "/"
         || byte_eqb c "034"
      then (set_step s stateInString, scanContinue)
      else if byte_eqb c "u" then (set_step s stateInStringEscU, scanContinue)
      else error_at s c "in string escape code"
  | stateInStringEscU => hex_step s c stateInStringEscU1
  | stateInStringEscU1 => hex_step s c stateInStringEscU12
  | stateInStringEscU12 => hex_step s c stateInStringEscU123
  | stateInStringEscU123 => hex_step s c stateInString
  | stateNeg =>
      if byte_eqb c "0" then (set_step s state0, scanContinue)
      else if in_range "1" "9" c then (set_step s state1, scanContinue)
      else error_at s c "in numeric literal"
  | state1 =>
      if isDigit c then (set_step s state1, scanContinue) else do_state0 s c
  | state0 => do_state0 s c
  | stateDot =>
      if isDigit c then (set_step s stateDot0, scanContinue)
      else error_at s c "after decimal point in numeric literal"
  | stateDot0 =>
      if isDigit c then (s, scanContinue)
      else if byte_eqb c "e" || byte_eqb c "E"
      then (set_step s stateE, scanContinue)
      else do_stateEndValue s c
  | stateE =>
      if byte_eqb c "+" || byte_eqb c "-"
      then (set_step s stateESign, scanContinue)
      else do_stateESign s c
  | stateESign => do_stateESign s c
  | stateE0 =>
      if isDigit c then (s, scanContinue) else do_stateEndValue s c
  | stateT => expect s c "r" stateTr "in literal true (expecting 'r')"
  | stateTr => expect s c "u" stateTru "in literal true (expecting 'u')"
  | stateTru => expect s c "e" stateEndValue "in literal true (expecting 'e')"
  | stateF => expect s c "a" stateFa "in literal false (expecting 'a')"
  | stateFa => expect s c "l" stateFal "in literal false (expecting 'l')"
  | stateFal => expect s c "s" stateFals "in literal false (expecting 's')"
  | stateFals =>
      expect s c "e" stateEndValue "in literal false (expecting 'e')"
  | stateN => expect s c "u" stateNu "in literal null (expecting 'u')"
  | stateNu => expect s c "l" stateNul "in literal null (expecting 'l')"
  | stateNul => expect s c "l" stateEndValue "in literal null (expecting 'l')"
  | stateError => (s, scanError)
  end.

(** [s.reset()] on a fresh scanner. *)
Definition reset : scanner := mkScanner stateBeginValue false [] None 0.

(** [s.eof()]: the error that ends the scan, if any. *)
Definition eof (s : scanner) : option error :=
  match err s with
  | Some e => Some e
  | None =>
      if endTop s then None
      else
        let s' := fst (do_step s " ") in
        if endTop s' then None
        else
          match err s' with
          | Some e => Some e
          | None => Some (SyntaxError "unexpected end of JSON input" (bytes s'))
          end
  end.

Fixpoint scan_all (s : scanner) (data : string) : option error :=
  match data with
  | EmptyString => eof s
  | String c rest =>
      let s1 := mkScanner (step s) (endTop s) (parseState s) (err s)
                  (bytes s + 1) in
      match do_step s1 c with
      | (s2, scanError) => err s2
      | (s2, _) => scan_all s2 rest
      end
  end.

(** [checkValid(data, scan)]: [None] when [data] is one JSON value. *)
Definition checkValid (data : string) : option error := scan_all reset data.

(* ------------------------------------------------------------------- *)
(** *** The value a checked text denotes *)

(** A number keeps its literal and a string the text between its quotes,
    escapes included: the decoder converts them by the type of the Go
    value they are stored in. *)
#[warnings="-register-all"] Inductive value : Type :=
  | Null
  | Bool (b : bool)
  | Number (lit : string)
  | Str (raw : string)
  | Array (elems : list value)
  | Object (members : list (string * value)).

Fixpoint skipSpace (s : string) : string :=
  match s with
  | String c r => if isSpace c then skipSpace r else s
  | EmptyString => s
  end.

(** The text of a string literal up to its closing quote, and the text
    after that quote. *)
Fixpoint scanString (s : string) : option (string * string) :=
  match s with
  | EmptyString => None
  | String c r =>
      if byte_eqb c "034" then Some (EmptyString, r)
      else if byte_eqb c "\" then
        match r with
        | String e r' =>
            match scanString r' with
            | Some (raw, rest) => Some (String c (String e raw), rest)
            | None => None
            end
        | EmptyString => None
        end
      else
        match scanString r with
        | Some (raw, rest) => Some (String c raw, rest)
        | None => None
        end
  end.

Definition isNumberByte (c : ascii) : bool :=
  isDigit c || byte_eqb c "-" || byte_eqb c "+" || byte_eqb c "."
  || byte_eqb c "e" || byte_eqb c "E".

Fixpoint scanNumber (s : string) : string * string :=
  match s with
  | String c r =>
      if isNumberByte c
      then let '(lit, rest) := scanNumber r in (String c lit, rest)
      else (EmptyString, s)
  | EmptyString => (EmptyString, s)
  end.

Definition dropPrefix (p s : string) : option string :=
  if String.prefix p s
  then Some (String.substring (String.length p)
               (String.length s - String.length p) s)
  else None.

(** Recursive descent over a text that [checkValid] accepted. [fuel]
    bounds the number of calls; every call consumes a byte. *)
Fixpoint parseValue (fuel : nat) (s : string) : option (value * string) :=
  match fuel with
  | O => None
  | S f =>
      match skipSpace s with
      | EmptyString => None
      | String c r =>
          if byte_eqb c "{" then
            match skipSpace r with
            | String "}" r' => Some (Object [], r')
            | r' =>
                match parseMembers f r' with
                | Some (ms, rest) => Some (Object ms, rest)
                | None => None
                end
            end
          else if byte_eqb c "[" then
            match skipSpace r with
            | String "]" r' => Some (Array [], r')
            | r' =>
                match parseElements f r' with
                | Some (es, rest) => Some (Array es, rest)
                | None => None
                end
            end
          else if byte_eqb c "034" then
            match scanString r with
            | Some (raw, rest) => Some (Str raw, rest)
            | None => None
            end
          else if byte_eqb c "t" then
            match dropPrefix "rue" r with
            | Some rest => Some (Bool true, rest)
            | None => None
            end
          else if byte_eqb c "f" then
            match dropPrefix "alse" r with
            | Some rest => Some (Bool false, rest)
            | None => None
            end
          else if byte_eqb c "n" then
            match dropPrefix "ull" r with
            | Some rest => Some (Null, rest)
            | None => None
            end
          else
            let '(lit, rest) := scanNumber (String c r) in
            match lit with
            | EmptyString => None
            | _ => Some (Number lit, rest)
            end
      end
  end
with parseMembers (fuel : nat) (s : string)
  : option (list (string * value) * string) :=
  match fuel with
  | O => None
  | S f =>
      match skipSpace s with
      | String "034" r =>
          match scanString r with
          | Some (key, r1) =>
              match skipSpace r1 with
              | String ":" r2 =>
                  match parseValue f r2 with
                  | Some (v, r3) =>
                      match skipSpace r3 with
                      | String "," r4 =>
                          match parseMembers f r4 with
                          | Some (ms, r5) => Some ((key, v) :: ms, r5)
                          | None => None
                          end
                      | String "}" r4 => Some ([(key, v)], r4)
                      | _ => None
                      end
                  | None => None
                  end
              | _ => None
              end
          | None => None
          end
      | _ => None
      end
  end
with parseElements (fuel : nat) (s : string)
  : option (list value * string) :=
  match fuel with
  | O => None
  | S f =>
      match parseValue f s with
      | Some (v, r1) =>
          match skipSpace r1 with
          | String "," r2 =>
              match parseElements f r2 with
              | Some (es, r3) => Some (v :: es, r3)
              | None => None
              end
          | String "]" r2 => Some ([v], r2)
          | _ => None
          end
      | None => None
      end
  end.

Definition parse (data : string) : option value :=
  match parseValue (S (String.length data)) data with
  | Some (v, rest) =>
      match skipSpace rest with
      | EmptyString => Some v
      | _ => None
      end
  | None => None
  end.

(* ------------------------------------------------------------------- *)
(** *** Strings: [unquoteBytes] and the encoder's [appendString] *)

(** [getu4]: the rune of a leading [\uXXXX], and the text after it. *)
Definition getu4 (s : string) : option (Z * string) :=
  match s with
  | String "\" (String "u" (String a (String b (String c (String d rest))))) =>
      if ishex a && ishex b && ishex c && ishex d
      then Some (unhex a * 4096 + unhex b * 256 + unhex c * 16 + unhex d, rest)
      else None
  | _ => None
  end.

Definition utf16_IsSurrogate (r : Z) : bool := (55296 <=? r) && (r <? 57344).

(** [utf16.DecodeRune] *)
Definition utf16_DecodeRune (r1 r2 : Z) : Z :=
  if (55296 <=? r1) && (r1 <? 56320) && (56320 <=? r2) && (r2 <? 57344)
  then Z.lor (Z.shiftl (r1 - 55296) 10) (r2 - 56320) + 65536
  else utf8.RuneError.

(** [unquoteBytes] on the text between the quotes of a literal: escapes
    are resolved and ill-formed UTF-8 is coerced to U+FFFD. [None] is
    Go's [ok = false]. *)
Fixpoint unquote_from (fuel : nat) (s : string) : option string :=
  match s with
  | EmptyString => Some EmptyString
  | String c r =>
      match fuel with
      | O => None
      | S f =>
          if byte_eqb c "\" then
            match r with
            | EmptyString => None
            | String e r' =>
                if byte_eqb e "034" || byte_eqb e "\" || byte_eqb e "/"
                   || byte_eqb e "'"
                then String e <$> unquote_from f r'
                else if byte_eqb e "b" then String "008" <$> unquote_from f r'
                else if byte_eqb e "f" then String "012" <$> unquote_from f r'
                else if byte_eqb e "n" then String "010" <$> unquote_from f r'
                else if byte_eqb e "r" then String "013" <$> unquote_from f r'
                else if byte_eqb e "t" then String "009" <$> unquote_from f r'
                else if byte_eqb e "u" then
                  match getu4 s with
                  | None => None
                  | Some (rr, rest) =>
                      if utf16_IsSurrogate rr then
                        match getu4 rest with
                        | Some (rr1, rest1) =>
                            let dec := utf16_DecodeRune rr rr1 in
                            if dec =? utf8.RuneError
                            then String.append (utf8.EncodeRune utf8.RuneError)
                                   <$> unquote_from f rest
                            else String.append (utf8.EncodeRune dec)
                                   <$> unquote_from f rest1
                        | None =>
                            String.append (utf8.EncodeRune utf8.RuneError)
                              <$> unquote_from f rest
                        end
                      else String.append (utf8.EncodeRune rr)
                             <$> unquote_from f rest
                  end
                else None
            end
          else if byte_eqb c "034" || (byte_val c <? 32) then None
          else if byte_val c <? utf8.RuneSelf then String c <$> unquote_from f r
          else
            let '(rr, _, rest) := utf8.DecodeRune s in
            String.append (utf8.EncodeRune rr) <$> unquote_from f rest
      end
  end.

Definition unquote (raw : string) : option string :=
  unquote_from (String.length raw) raw.

(** The bytes below 128 that the encoder copies unescaped
    ([htmlSafeSet]). *)
Definition htmlSafe (c : ascii) : bool :=
  (32 <=? byte_val c)
  && negb (byte_eqb c "034" || byte_eqb c "\" || byte_eqb c "<"
           || byte_eqb c ">" || byte_eqb c "&").

Definition escape_u00 (b : Z) : string :=
  String "\" (String "u" (String "0" (String "0"
    (String (hexdigit (Z.shiftr b 4)) (str1 (hexdigit (Z.land b 15))))))).

(** The body of [appendString(dst, src, escapeHTML = true)]. *)
Fixpoint appendString_from (fuel : nat) (src : string) : string :=
  match src with
  | EmptyString => EmptyString
  | String b r =>
      match fuel with
      | O => EmptyString
      | S f =>
          if byte_val b <? utf8.RuneSelf then
            (if htmlSafe b then str1 b
             else if byte_eqb b "\" || byte_eqb b "034" then String "\" (str1 b)
             else if byte_val b =? 8 then "\b"
             else if byte_val b =? 12 then "\f"
             else if byte_val b =? 10 then "\n"
             else if byte_val b =? 13 then "\r"
             else if byte_val b =? 9 then "\t"
             else escape_u00 (byte_val b))
            +:+ appendString_from f r
          else
            let '(c, size, rest) := utf8.DecodeRune src in
            if (c =? utf8.RuneError) && (size =? 1)
            then "\ufffd" +:+ appendString_from f rest
            else if (c =? 8232) || (c =? 8233)
            then "\u202" +:+ str1 (hexdigit (Z.land c 15))
                 +:+ appendString_from f rest
            else String.substring 0 (Z.to_nat size) src
                 +:+ appendString_from f rest
      end
  end.

(** A Go string as a JSON string literal. *)
Definition encodeString (src : string) : string :=
  String "034" (appendString_from (String.length src) src) +:+ str1 "034".

End json.

(* ===================================================================== *)
(** ** encoding/json: storing a value into Go data ([decode.go]) *)
(* ===================================================================== *)

Module decode.

(** [d.errorContext]: the name of the struct being filled and the stack
    of JSON field names that leads to the current value. *)
Definition errorContext : Type := string * list string.

(** A decoder threads [d.savedError], the first type mismatch met: a
    mismatch does not stop the decoding, any other error does. *)
Definition dec (A : Type) : Type := option error -> result (A * option error).

Definition dret {A} (a : A) : dec A := fun saved => Ok (a, saved).

Definition dbind {A B} (m : dec A) (k : A -> dec B) : dec B :=
  fun saved =>
    match m saved with
    | Ok (a, saved') => k a saved'
    | Err e => Err e
    end.

Definition dfail {A} (e : error) : dec A := fun _ => Err e.

Notation "'let*' x ':=' m 'in' k" := (dbind m (fun x => k))
  (at level 10, x name, m at level 100, k at level 200, only parsing).

(** The decoder and the scanner disagree on the text: cannot happen on a
    text that [checkValid] accepted. *)
Definition errPhase : error :=
  errors_New "JSON decoder out of sync - data changing underfoot?".

Fixpoint strings_Join (l : list string) (sep : string) : string :=
  match l with
  | [] => EmptyString
  | [x] => x
  | x :: r => x +:+ sep +:+ strings_Join r sep
  end.

(** [d.addErrorContext(err)] *)
Definition addErrorContext (c : errorContext) (e : error) : error :=
  match e with
  | UnmarshalTypeError v t _ _ =>
      if String.eqb (fst c) EmptyString && (length (snd c) =? 0)%nat
      then e
      else UnmarshalTypeError v t (fst c) (strings_Join (snd c) ".")
  | _ => e
  end.

(** [d.saveError(err)] *)
Definition saveError (c : errorContext) (e : error) : dec unit :=
  fun saved =>
    Ok (tt, match saved with
            | Some _ => saved
            | None => Some (addErrorContext c e)
            end).

Definition kindOf (v : json.value) : string :=
  match v with
  | json.Null => "null"
  | json.Bool _ => "bool"
  | json.Number _ => "number"
  | json.Str _ => "string"
  | json.Array _ => "array"
  | json.Object _ => "object"
  end.

(** A JSON value of a kind that the Go type [ty] cannot hold: the
    mismatch is saved and the Go value keeps its content. *)
Definition mismatch {A} (c : errorContext) (ty : string) (v : json.value)
    (old : A) : dec A :=
  let* _ := saveError c (UnmarshalTypeError (kindOf v) ty EmptyString EmptyString)
  in dret old.

Fixpoint digits_value (s : string) (acc : Z) : option Z :=
  match s with
  | EmptyString => Some acc
  | String c r =>
      if isDigit c then digits_value r (acc * 10 + (byte_val c - 48)) else None
  end.

(** [strconv.ParseUint(s, 10, 64)] *)
Definition strconv_ParseUint64 (s : string) : option Z :=
  match s with
  | EmptyString => None
  | _ =>
      match digits_value s 0 with
      | Some n => if n <? 2 ^ 64 then Some n else None
      | None => None
      end
  end.

(** Into a Go value of kind string whose type prints as [ty]. *)
Definition decode_string (ty : string) (v : json.value) (old : string)
    (c : errorContext) : dec string :=
  match v with
  | json.Null => dret old
  | json.Str raw =>
      match json.unquote raw with
      | Some s => dret s
      | None => dfail errPhase
      end
  | _ => mismatch c ty v old
  end.

Definition decode_bool (v : json.value) (old : bool) (c : errorContext)
  : dec bool :=
  match v with
  | json.Null => dret old
  | json.Bool b => dret b
  | _ => mismatch c "bool" v old
  end.

Definition decode_uint64 (v : json.value) (old : Z) (c : errorContext)
  : dec Z :=
  match v with
  | json.Null => dret old
  | json.Number lit =>
      match strconv_ParseUint64 lit with
      | Some n => dret n
      | None =>
          let* _ := saveError c
            (UnmarshalTypeError ("number " +:+ lit) "uint64"
               EmptyString EmptyString)
          in dret old
      end
  | _ => mismatch c "uint64" v old
  end.

Section generic.
Context {A : Type}.
Variable zero : A.
Variable elem : json.value -> A -> errorContext -> dec A.

(** Into a pointer: [null] sets it to nil; for any other value the
    pointer is followed, after allocating a zero [A] when it is nil. *)
Definition decode_ptr (v : json.value) (old : option A) (c : errorContext)
  : dec (option A) :=
  match v with
  | json.Null => dret None
  | _ => let* a := elem v (default zero old) c in dret (Some a)
  end.

(** Element [i] of the array is decoded into element [i] of the slice
    when the slice has one, and into a zero element otherwise. *)
Fixpoint decode_elems (es : list json.value) (old : list A)
    (c : errorContext) : dec (list A) :=
  match es with
  | [] => dret []
  | e :: es' =>
      let* a := elem e (hd zero old) c in
      let* rest := decode_elems es' (tl old) c in
      dret (a :: rest)
  end.

(** Into a slice whose type prints as [ty]: [null] sets it to nil, an
    array sets it to a slice that is not nil, even when empty. *)
Definition decode_slice (ty : string) (v : json.value)
    (old : option (list A)) (c : errorContext) : dec (option (list A)) :=
  match v with
  | json.Null => dret None
  | json.Array es =>
      let* l := decode_elems es (default [] old) c in dret (Some l)
  | _ => mismatch c ty v old
  end.

End generic.

(** [foldName]: the upper-case form of an ASCII letter; the runes U+017F
    and U+212A fold to S and K. No other rune folds to an ASCII byte. *)
Fixpoint foldName_from (fuel : nat) (s : string) : string :=
  match s with
  | EmptyString => EmptyString
  | String c r =>
      match fuel with
      | O => EmptyString
      | S f =>
          if in_range "a" "z" c
          then String (byte_of (byte_val c - 32)) (foldName_from f r)
          else if byte_val c <? utf8.RuneSelf then String c (foldName_from f r)
          else
            let '(rr, size, rest) := utf8.DecodeRune s in
            if rr =? 383 then String "S" (foldName_from f rest)
            else if rr =? 8490 then String "K" (foldName_from f rest)
            else String.substring 0 (Z.to_nat size) s +:+ foldName_from f rest
      end
  end.

Definition foldName (s : string) : string := foldName_from (String.length s) s.

Section structs.
Context {T : Type}.

(** A field of a struct: its JSON name and the decoder of its value. *)
Definition field : Type :=
  string * (json.value -> T -> errorContext -> dec T).

(** The field a key names: the one of exactly that name, or else the
    first whose name equals the key up to case. *)
Definition find_field (fs : list field) (key : string) : option field :=
  match List.find (fun f => String.eqb (fst f) key) fs with
  | Some f => Some f
  | None =>
      List.find (fun f => String.eqb (foldName (fst f)) (foldName key)) fs
  end.

(** The members of an object in order; a key that names no field is
    skipped with its value. *)
Fixpoint decode_members (name : string) (fs : list field)
    (ms : list (string * json.value)) (old : T) (c : errorContext) : dec T :=
  match ms with
  | [] => dret old
  | (rawkey, v) :: rest =>
      match json.unquote rawkey with
      | None => dfail errPhase
      | Some key =>
          match find_field fs key with
          | Some (fname, set) =>
              let* s1 := set v old (name, (snd c ++ [fname])%list) in
              decode_members name fs rest s1 c
          | None => decode_members name fs rest old c
          end
      end
  end.

(** Into a struct named [name] whose type prints as [ty]. *)
Definition decode_struct (name ty : string) (fs : list field)
    (v : json.value) (old : T) (c : errorContext) : dec T :=
  match v with
  | json.Null => dret old
  | json.Object ms => decode_members name fs ms old c
  | _ => mismatch c ty v old
  end.

(** [json.Unmarshal(data, p)] for a pointer [p] to a value [old] that
    the decoder [d] fills. On an error the program never reads what [p]
    points to, so only the error is returned. *)
Definition Unmarshal
    (d : json.value -> T -> errorContext -> dec T)
    (data : string) (old : T) : result T :=
  match json.checkValid data with
  | Some e => Err e
  | None =>
      match json.parse data with
      | None => Err errPhase
      | Some v =>
          match d v old (EmptyString, []) None with
          | Err e => Err e
          | Ok (_, Some e) => Err e
          | Ok (a, None) => Ok a
          end
      end
  end.

End structs.

End decode.

(* ===================================================================== *)
(** ** net/url *)
(* ===================================================================== *)

Module url.

(** A parsed [*url.URL], kept as the text it was parsed from. The text
    that the URL is printed and sent as is [URL_String], which escapes the
    bytes that need it: the two differ for a path with a space in it. *)
Record URL : Type := mkURL { text : string }.

Fixpoint stringContainsCTLByte (s : string) : bool :=
  match s with
  | EmptyString => false
  | String c r =>
      (byte_val c <? 32) || (byte_val c =? 127) || stringContainsCTLByte r
  end.

(** The check that [unescape(s, encodePath)] and
    [unescape(s, encodeFragment)] make: every ['%'] is followed by two
    hexadecimal digits. The error carries the escape that is not. *)
Fixpoint checkEscapes (s : string) : option error :=
  match s with
  | EmptyString => None
  | String c r =>
      if byte_eqb c "%" then
        match r with
        | String a (String b _) =>
            if ishex a && ishex b then checkEscapes r
            else Some (EscapeError (String.substring 0 3 s))
        | _ => Some (EscapeError (String.substring 0 3 s))
        end
      else checkEscapes r
  end.

(** [url.Parse(rawURL)] for a text that starts with a scheme, ["//"], a
    host name and a ['/'], as every text this program parses does (it
    starts with [baseURL]). The scheme and the host of such a text have
    been checked; what can still fail is: a control byte before the
    fragment, an escape of the path, an escape of the fragment. *)
Definition Parse (rawURL : string) : result URL :=
  let '(u, frag, _) := strings_Cut rawURL "#" in
  if stringContainsCTLByte u
  then Err (url_Error "parse" u
              (errors_New "net/url: invalid control character in URL"))
  else
    let '(rest, _, _) := strings_Cut u "?" in
    match checkEscapes rest with
    | Some e => Err (url_Error "parse" u e)
    | None =>
        match checkEscapes frag with
        | Some e => Err (url_Error "parse" rawURL e)
        | None => Ok (mkURL rawURL)
        end
    end.

(** The two modes of escaping that the path and the fragment of a URL
    go through. *)
Inductive encoding : Type :=
  | encodePath
  | encodeFragment.

(** [shouldEscape(c, mode)] *)
Definition shouldEscape (c : ascii) (mode : encoding) : bool :=
  if in_range "a" "z" c || in_range "A" "Z" c || in_range "0" "9" c
  then false
  else if existsb (byte_eqb c) ["-"; "_"; "."; "~"]%char
  then false
  else if existsb (byte_eqb c)
            ["$"; "&"; "+"; ","; "/"; ":"; ";"; "="; "?"; "@"]%char
  then match mode with
       | encodePath => byte_eqb c "?"
       | encodeFragment => false
       end
  else match mode with
       | encodeFragment => negb (existsb (byte_eqb c) ["!"; "("; ")"; "*"]%char)
       | encodePath => true
       end.

Definition upperhex (n : Z) : ascii :=
  if n <? 10 then byte_of (48 + n) else byte_of (55 + n).

(** [escape(s, mode)] *)
Fixpoint escape (s : string) (mode : encoding) : string :=
  match s with
  | EmptyString => EmptyString
  | String c r =>
      if shouldEscape c mode
      then String "%"
             (String (upperhex (Z.shiftr (byte_val c) 4))
                (String (upperhex (Z.land (byte_val c) 15)) (escape r mode)))
      else String c (escape r mode)
  end.

(** What [unescape(s, mode)] returns in these two modes for a text whose
    escapes [checkEscapes] has accepted: every escape gives its byte. *)
Fixpoint unescape (s : string) : string :=
  match s with
  | EmptyString => EmptyString
  | String c r =>
      if byte_eqb c "%" then
        match r with
        | String a (String b r') =>
            String (byte_of (Z.lor (Z.shiftl (unhex a) 4) (unhex b)))
              (unescape r')
        | _ => EmptyString
        end
      else String c (unescape r)
  end.

(** [validEncoded(s, mode)] *)
Definition validEncoded (s : string) (mode : encoding) : bool :=
  forallb
    (fun c =>
       existsb (byte_eqb c)
         ["!"; "$"; "&"; "'"; "("; ")"; "*"; "+"; ","; ";"; "="; ":"; "@";
          "["; "]"; "%"]%char
       || negb (shouldEscape c mode))
    (bytes_of_string s).

(** [u.EscapedPath()] for the URL that [setPath(p)] has made: [Path] is
    the unescaped [p], and [RawPath] is [p] unless [p] is the default
    escaping of [Path]. *)
Definition EscapedPath (p : string) : string :=
  let Path := unescape p in
  let RawPath :=
    if String.eqb p (escape Path encodePath) then EmptyString else p in
  if negb (String.eqb RawPath EmptyString)
     && validEncoded RawPath encodePath
     && String.eqb (unescape RawPath) Path
  then RawPath
  else if String.eqb Path "*" then "*"
  else escape Path encodePath.

(** [u.EscapedFragment()] for the URL that [setFragment(f)] has made. *)
Definition EscapedFragment (f : string) : string :=
  let Fragment := unescape f in
  let RawFragment :=
    if String.eqb f (escape Fragment encodeFragment) then EmptyString else f in
  if negb (String.eqb RawFragment EmptyString)
     && validEncoded RawFragment encodeFragment
     && String.eqb (unescape RawFragment) Fragment
  then RawFragment
  else escape Fragment encodeFragment.

(** The authority of a text that follows ["//"], and the path from its
    first ['/'] on. *)
Fixpoint splitAuthority (s : string) : string * string :=
  match s with
  | EmptyString => (EmptyString, EmptyString)
  | String c r =>
      if byte_eqb c "/" then (EmptyString, s)
      else let '(a, p) := splitAuthority r in (String c a, p)
  end.

(** [u.String()] for a URL that [Parse] has made of a text that starts
    with a scheme in lower case, ["//"], a host name and a ['/']: the
    scheme and the host as they came, the escaped path, the query as it
    came, and the escaped fragment when there is one. *)
Definition URL_String (u : URL) : string :=
  let '(s, frag, _) := strings_Cut (text u) "#" in
  let '(s, RawQuery, hasQuery) := strings_Cut s "?" in
  let '(Scheme, rest, _) := strings_Cut s ":" in
  let '(Host, p) :=
    splitAuthority
      (match rest with
       | String _ (String _ r) => r
       | _ => EmptyString
       end) in
  Scheme +:+ "://" +:+ Host +:+ EscapedPath p
  +:+ (if hasQuery then "?" +:+ RawQuery else EmptyString)
  +:+ (if String.eqb (unescape frag) EmptyString then EmptyString
       else "#" +:+ EscapedFragment frag).

End url.

(* ===================================================================== *)
(** ** net/http *)
(* ===================================================================== *)

Module http.

(** [validHeaderFieldByte]: the bytes of an HTTP token. *)
Definition validHeaderFieldByte (c : ascii) : bool :=
  in_range "a" "z" c || in_range "A" "Z" c || in_range "0" "9" c
  || existsb (byte_eqb c)
       ["!"; "#"; "$"; "%"; "&"; "'"; "*"; "+"; "-"; "."; "^"; "_"; "`"; "|";
        "~"]%char.

Fixpoint canonical_from (upper : bool) (s : string) : string :=
  match s with
  | EmptyString => EmptyString
  | String c r =>
      let c' :=
        if upper && in_range "a" "z" c then byte_of (byte_val c - 32)
        else if negb upper && in_range "A" "Z" c then byte_of (byte_val c + 32)
        else c in
      String c' (canonical_from (byte_eqb c' "-") r)
  end.

(** [textproto.CanonicalMIMEHeaderKey]: a key that is not a token is
    left as it is. *)
Definition CanonicalMIMEHeaderKey (s : string) : string :=
  if forallb validHeaderFieldByte (bytes_of_string s)
  then canonical_from true s
  else s.

(** [http.Header], a [map[string][]string]. *)
Abbreviation Header := (gmap string (list string)).

(** [h.Add(key, value)] *)
Definition Header_Add (h : Header) (key value : string) : Header :=
  let k := CanonicalMIMEHeaderKey key in
  <[k := (default [] (h !! k) ++ [value])%list]> h.

(** [h.Set(key, value)] *)
Definition Header_Set (h : Header) (key value : string) : Header :=
  <[CanonicalMIMEHeaderKey key := [value]]> h.

(** [h.Del(key)] *)
Definition Header_Del (h : Header) (key : string) : Header :=
  delete (CanonicalMIMEHeaderKey key) h.

(** [h.Values(key)] *)
Definition Header_Values (h : Header) (key : string) : list string :=
  default [] (h !! CanonicalMIMEHeaderKey key).

(** [h.Get(key)] *)
Definition Header_Get (h : Header) (key : string) : string :=
  hd EmptyString (Header_Values h key).

(** A body to read: what [ioutil.ReadAll] returns for it, the bytes read
    and the error that stopped the reading, if any. *)
Record Reader : Type := mkReader {
  content : string;
  readErr : option error
}.

(** [bytes.NewReader(b)] *)
Definition bytes_NewReader (b : string) : Reader := mkReader b None.

(** [ioutil.ReadAll(r)] *)
Definition ioutil_ReadAll (r : Reader) : string * option error :=
  (content r, readErr r).

Record Request : Type := mkRequest {
  Method : string;
  URL : url.URL;
  Header_ : Header;
  Body : Reader
}.

Record Response : Type := mkResponse {
  Status : string;
  StatusCode : Z;
  RespHeader : Header;
  RespBody : Reader
}.

(** [req.Header.Add(key, value)] *)
Definition Request_Header_Add (req : Request) (key value : string) : Request :=
  mkRequest (Method req) (URL req) (Header_Add (Header_ req) key value)
    (Body req).

(** [http.RoundTripper]: one HTTP exchange. *)
Definition RoundTripper : Type := Request -> result Response.

Definition validMethod (method : string) : bool :=
  negb (String.eqb method EmptyString)
  && forallb validHeaderFieldByte (bytes_of_string method).

(** [http.NewRequest(method, url, body)] *)
Definition NewRequest (method urlStr : string) (body : Reader)
  : result Request :=
  let method := if String.eqb method EmptyString then "GET" else method in
  if negb (validMethod method)
  then Err (errors_New ("net/http: invalid method " +:+ strconv_Quote method))
  else
    match url.Parse urlStr with
    | Err e => Err e
    | Ok u => Ok (mkRequest method u ∅ body)
    end.

(** What has left the program so far, oldest first: [sent] holds the
    requests that the program has handed to [Do], and [trips] those that
    [Do] has handed to [RoundTrip] of a transport. A call of [Do] hands
    the transport the request it was given and, when it follows
    redirects, further requests of its own making. *)
Record World : Type := mkWorld {
  sent : list Request;
  trips : list Request
}.

(** [http.Client], of which the program sets the transport only: the
    policy of redirects, the cookie jar and the timeout are the default
    ones. *)
Record Client : Type := mkClient { Transport : option RoundTripper }.

(** The statuses on which [Do] goes on to another URL
    ([redirectBehavior]): with any other status the response of the
    transport is the result of [Do]. *)
Definition isRedirect (code : Z) : bool :=
  existsb (Z.eqb code) [301; 302; 303; 307; 308].

(** What [Do] makes of a response with such a status to the request it
    was given: the response or the error that it returns in the end, and
    the further requests that it hands to the transport on the way. It
    is a function of the transport, of the request and of that response
    (of its status and its [Location] above all); [net/http] fixes it,
    and this development leaves it open. When [Do] returns an error
    together with a response, as it does when it stops after ten
    redirects, the error is the result: the program looks at the error
    first and drops the response. *)
Definition Redirects : Type :=
  RoundTripper -> Request -> Response -> result Response * list Request.

Definition isPrint (c : ascii) : bool := in_range " " "~" c.

Definition toLower (c : ascii) : ascii :=
  if in_range "A" "Z" c then byte_of (byte_val c + 32) else c.

Fixpoint strings_ToLower (s : string) : string :=
  match s with
  | EmptyString => EmptyString
  | String c r => String (toLower c) (strings_ToLower r)
  end.

(** [urlErrorOp(method)]: the method with its first byte as it is and
    the others in lower case. *)
Definition urlErrorOp (method : string) : string :=
  match method with
  | EmptyString => "Get"
  | String c r =>
      if forallb isPrint (bytes_of_string method)
      then String c (strings_ToLower r)
      else method
  end.

(** [c.do(req)] with the transport [rt]: the result, and the requests
    handed to the transport, the first of which is [req]. An error of
    the transport on [req] comes back inside a [*url.Error] that holds
    the method and the URL of the request. *)
Definition Client_do (rt : RoundTripper) (follow : Redirects) (req : Request)
  : result Response * list Request :=
  match rt req with
  | Err err =>
      (Err (url_Error (urlErrorOp (Method req)) (url.URL_String (URL req)) err),
       [req])
  | Ok resp =>
      if isRedirect (StatusCode resp)
      then let '(res, more) := follow rt req resp in (res, req :: more)
      else (Ok resp, [req])
  end.

(** [c.Do(req)]: the transport is [c.Transport], or [DefaultTransport]
    when that is nil. *)
Definition Client_Do (DefaultTransport : RoundTripper) (follow : Redirects)
    (c : Client) (req : Request) (w : World) : result Response * World :=
  let '(res, reqs) :=
    Client_do (default DefaultTransport (Transport c)) follow req in
  (res, mkWorld (sent w ++ [req]) (trips w ++ reqs)).

Definition StatusBadRequest : Z := 400.
Definition StatusOK : Z := 200.

(** The state of a [http.ResponseWriter] while a handler runs. *)
Record ResponseWriter : Type := mkResponseWriter {
  header : Header;
  wroteHeader : option Z;
  written : string
}.

Definition newResponseWriter : ResponseWriter := mkResponseWriter ∅ None EmptyString.

(** [w.WriteHeader(code)]: the first call fixes the status. *)
Definition WriteHeader (w : ResponseWriter) (code : Z) : ResponseWriter :=
  match wroteHeader w with
  | Some _ => w
  | None => mkResponseWriter (header w) (Some code) (written w)
  end.

(** [w.Write(data)]: writes the status 200 first when none was written. *)
Definition Write (w : ResponseWriter) (data : string) : ResponseWriter :=
  let w := WriteHeader w StatusOK in
  mkResponseWriter (header w) (wroteHeader w) (written w +:+ data).

(** [http.Error(w, error, code)] *)
Definition Error (w : ResponseWriter) (error : string) (code : Z)
  : ResponseWriter :=
  let h := Header_Del (header w) "Content-Length" in
  let h := Header_Set h "Content-Type" "text/plain; charset=utf-8" in
  let h := Header_Set h "X-Content-Type-Options" "nosniff" in
  let w := WriteHeader (mkResponseWriter h (wroteHeader w) (written w)) code in
  Write w (error +:+ String "010" EmptyString).

(** What the server sends once the handler has returned: the status
    written, or 200 when the handler wrote none, and the bytes written. *)
Definition reply (w : ResponseWriter) : Z * string :=
  (default StatusOK (wroteHeader w), written w).

End http.

(* ===================================================================== *)
(** ** os *)
(* ===================================================================== *)

(** The environment of the process: the variables that are set. *)
Abbreviation Env := (gmap string string).

(** [os.Getenv(key)]: empty for a variable that is not set. *)
Definition os_Getenv (env : Env) (key : string) : string :=
  default EmptyString (env !! key).

(* ===================================================================== *)
(** ** github.com/orijtech/otils *)
(* ===================================================================== *)

(** The module otils is a dependency whose source is not in the
    repository. Its two functions that the client calls follow what the
    specification says of them. *)
Module otils.

(** Modelled from the spec: the source of [otils.StatusOK] is missing;
    the specification calls every status it rejects "non-2xx". *)
Definition StatusOK (code : Z) : bool := (200 <=? code) && (code <=? 299).

(** Modelled from the spec: the source of [otils.EnvOrAlternates] is
    missing; by the specification it reads the named variable, and the
    result is empty exactly when the variable is unset or empty. With
    alternates, the first one that is not empty stands in for an empty
    variable. *)
Definition EnvOrAlternates (env : Env) (envVar : string)
    (alternates : list string) : string :=
  let retr := os_Getenv env envVar in
  if negb (String.eqb retr EmptyString) then retr
  else
    match
      List.find (fun alt => negb (String.eqb alt EmptyString)) alternates
    with
    | Some alt => alt
    | None => EmptyString
    end.

End otils.

(* ===================================================================== *)
(** ** Package gcla: the data model *)
(* ===================================================================== *)

Definition Event : Type := string.

Definition EventIssues : Event := "issues".
Definition EventPush : Event := "push".
Definition EventPullRequest : Event := "pull_request".

Definition ContentType : Type := string.

Definition JSON : ContentType := "json".
Definition JSONP : ContentType := "jsonp".
Definition XML : ContentType := "xml".

Record PayloadConfig : Type := mkPayloadConfig {
  PayloadConfig_URL : string;
  PayloadConfig_ContentType : ContentType
}.

Record SubscribeRequest : Type := mkSubscribeRequest {
  SubscribeRequest_Name : string;
  SubscribeRequest_Active : bool;
  SubscribeRequest_Events : option (list Event);
  SubscribeRequest_Config : option PayloadConfig
}.

Record RepoSubscribeRequest : Type := mkRepoSubscribeRequest {
  Owner : string;
  Repo : string;
  HookSubscription : option SubscribeRequest
}.

(** The field [mu] of the client, a [sync.RWMutex], guards [rt] and
    [apiKey] between goroutines. The calls are modelled one at a time, where
    taking and releasing the lock changes nothing, so the lock is left out. *)
Record Client : Type := mkClient {
  rt : option http.RoundTripper;
  apiKey : string
}.

Definition baseURL : string := "https://api.github.com".

Definition gclaEnvKey : string := "GCLA_GITHUB_API_KEY".

Definition errBlankSubscription : error :=
  errors_New "no subscription could be parsed".

(* --------------------------------------------------------------------- *)
(** *** [json.Marshal] of a subscription request *)

(** A struct as a JSON object: the fields that [omitempty] keeps, in the
    order of the struct. *)
Definition encodeObject (fields : list (option (string * string))) : string :=
  "{" +:+ decode.strings_Join
            (map (fun f => json.encodeString (fst f) +:+ ":" +:+ snd f)
               (omap id fields)) ","
  +:+ "}".

Definition omitempty_string (name s : string) : option (string * string) :=
  if String.eqb s EmptyString then None else Some (name, json.encodeString s).

Definition encode_PayloadConfig (p : PayloadConfig) : string :=
  encodeObject
    [ omitempty_string "url" (PayloadConfig_URL p);
      omitempty_string "content_type" (PayloadConfig_ContentType p) ].

Definition encode_SubscribeRequest (s : SubscribeRequest) : string :=
  encodeObject
    [ omitempty_string "name" (SubscribeRequest_Name s);
      (if SubscribeRequest_Active s then Some ("active", "true") else None);
      (match SubscribeRequest_Events s with
       | Some (e :: es) =>
           Some ("events",
                 "[" +:+ decode.strings_Join (map json.encodeString (e :: es)) ","
                 +:+ "]")
       | _ => None
       end);
      (match SubscribeRequest_Config s with
       | Some p => Some ("config", encode_PayloadConfig p)
       | None => None
       end) ].

(** [json.Marshal(p)] for [p] of type [*SubscribeRequest]. No value of
    this type makes the encoder fail. *)
Definition Marshal_SubscribeRequest (p : option SubscribeRequest)
  : result string :=
  match p with
  | None => Ok "null"
  | Some s => Ok (encode_SubscribeRequest s)
  end.

(* ===================================================================== *)
(** ** Data to run the model on *)
(* ===================================================================== *)

Module Sample.

(** JSON texts are written with ['] for the double quote. *)
Fixpoint dq (s : string) : string :=
  match s with
  | EmptyString => EmptyString
  | String c r => String (if byte_eqb c "'" then "034"%char else c) (dq r)
  end.

(** An instance of [time.Time]: a time is kept as its RFC 3339 text, and
    only the form [2006-01-02T15:04:05Z] is read. *)
Definition Time : Type := string.

Definition isUTCSeconds (s : string) : bool :=
  match bytes_of_string s with
  | [y1; y2; y3; y4; "-"; m1; m2; "-"; d1; d2; "T"; h1; h2; ":"; n1; n2; ":";
     s1; s2; "Z"]%char =>
      forallb isDigit [y1; y2; y3; y4; m1; m2; d1; d2; h1; h2; n1; n2; s1; s2]
  | _ => false
  end.

Definition Time_UnmarshalJSON (v : json.value) : result Time :=
  match v with
  | json.Str raw =>
      if isUTCSeconds raw then Ok raw
      else Err (foreignError ("parsing time " +:+ strconv_Quote raw))
  | _ => Err (errors_New "Time.UnmarshalJSON: input is not a JSON string")
  end.

Definition Time_DeepEqual (x y : Time) : bool := String.eqb x y.

(** No network: the default transport cannot connect. *)
Definition DefaultTransport : http.RoundTripper :=
  fun _ => Err (foreignError "dial tcp: lookup api.github.com: no such host").

(** A transport that answers every request alike. *)
Definition respond (res : http.Response) : http.RoundTripper :=
  fun _ => Ok res.

Definition answer (status : string) (code : Z) (body : string)
  : http.Response :=
  http.mkResponse status code ∅ (http.bytes_NewReader body).

Definition hookJSON : string :=
  dq ("{'type': 'Repository', 'id': 12345678, 'name': 'web', 'active': true,"
      +:+ " 'events': ['push', 'pull_request'],"
      +:+ " 'config': {'content_type': 'json', 'insecure_ssl': '0',"
      +:+ " 'url': 'https://hooks.orijtech/gcla-test'},"
      +:+ " 'updated_at': '2019-06-03T00:57:16Z',"
      +:+ " 'created_at': '2019-06-03T00:57:16Z',"
      +:+ " 'url': 'https://api.github.com/repos/orijtech/gcla/hooks/12345678',"
      +:+ " 'test_url': 'https://api.github.com/repos/orijtech/gcla/hooks/12345678/test',"
      +:+ " 'ping_url': 'https://api.github.com/repos/orijtech/gcla/hooks/12345678/pings'}").

Definition createdResponse : http.Response := answer "201 Created" 201 hookJSON.

Definition created : http.RoundTripper := respond createdResponse.

Definition createdEmpty : http.RoundTripper :=
  respond (answer "201 Created" 201 "{}").

Definition notFoundResponse : http.Response :=
  answer "404 Not Found" 404 (dq "{'message': 'Not Found'}").

Definition notFound : http.RoundTripper := respond notFoundResponse.

(** The request of the example of the package. *)
Definition rsr : RepoSubscribeRequest :=
  mkRepoSubscribeRequest "orijtech" "gcla"
    (Some (mkSubscribeRequest "test" true
             (Some [EventIssues; EventPush; EventPullRequest])
             (Some (mkPayloadConfig "https://hooks.orijtech/gcla-test" JSON)))).


Definition client (rt : http.RoundTripper) : Client :=
  mkClient (Some rt) "s3cr3t".

Definition world0 : http.World := http.mkWorld [] [].

(** A delivery to the receiver with the body [body]. *)
Definition delivery (body : string) : http.Request :=
  http.mkRequest "POST" (url.mkURL "/ping") ∅ (http.bytes_NewReader body).

Definition pingJSON : string :=
  dq "{'zen': 'Keep it logically awesome.', 'hook_id': '30', 'hook': {'id': 30}}".

(** A transport that cannot reach the server. *)
Definition refused : http.RoundTripper :=
  fun _ => Err (foreignError "dial tcp 140.82.112.6:443: connection refused").

(** An answer whose body breaks off after its first byte. *)
Definition truncated : http.RoundTripper :=
  respond (http.mkResponse "200 OK" 200 ∅
             (http.mkReader "{" (Some (foreignError "unexpected EOF")))).

(** An answer whose body is not JSON. *)
Definition notJSON : http.RoundTripper :=
  respond (answer "200 OK" 200 "<html>").

(** The configuration of the example of the package. *)
Definition config : SubscribeRequest :=
  mkSubscribeRequest "test" true
    (Some [EventIssues; EventPush; EventPullRequest])
    (Some (mkPayloadConfig "https://hooks.orijtech/gcla-test" JSON)).

(** An environment in which the key is set. *)
Definition env : Env := {[ "GCLA_GITHUB_API_KEY" := "s3cr3t" ]}.

(** A delivery whose body breaks off after its first byte. *)
Definition brokenDelivery : http.Request :=
  http.mkRequest "POST" (url.mkURL "/ping") ∅
    (http.mkReader "{" (Some (foreignError "unexpected EOF"))).

(** The redirect that the data below needs: after [302 Found] with an
    absolute [Location] on the host of the request, [Do] sends one [GET]
    to that URL, without a body, with the header of the first request and
    its URL as the [Referer], and returns the answer to it. *)
Definition follow : http.Redirects :=
  fun rt req resp =>
    let next :=
      http.mkRequest "GET"
        (url.mkURL (http.Header_Get (http.RespHeader resp) "Location"))
        (http.Header_Set (http.Header_ req) "Referer"
           (url.URL_String (http.URL req)))
        (http.bytes_NewReader EmptyString) in
    (rt next, [next]).

(** A server on which the hooks have moved: it answers a [POST] with
    [302 Found] and the new place, and a [GET] with the hook. *)
Definition movedResponse : http.Response :=
  http.mkResponse "302 Found" 302
    {[ "Location" := ["https://api.github.com/repositories/1/hooks"] ]}
    (http.bytes_NewReader EmptyString).

Definition moved : http.RoundTripper :=
  fun req =>
    if String.eqb (http.Method req) "POST" then Ok movedResponse
    else Ok (answer "200 OK" 200 hookJSON).

End Sample.

(* ===================================================================== *)
(** ** Package gcla: the subscription client *)
(* ===================================================================== *)

Section gcla.

(** [time.Time] and its [UnmarshalJSON] are left open: the program only
    stores the times it decodes. [Time_UnmarshalJSON] gets a JSON value
    that is not [null]; [Time_DeepEqual] is [reflect.DeepEqual] on two
    times. *)
Variable Time : Type.
Variable Time_UnmarshalJSON : json.value -> result Time.
Variable Time_DeepEqual : Time -> Time -> bool.

(** [http.DefaultTransport], which a client without a transport uses. *)
Variable DefaultTransport : http.RoundTripper.

(** How [Do] follows a redirect. *)
Variable follow : http.Redirects.

Record Subscription : Type := mkSubscription {
  Subscription_ID : Z;
  Subscription_URL : string;
  Subscription_TestURL : string;
  Subscription_PingURL : string;
  Subscription_Name : string;
  Subscription_Events : option (list Event);
  Subscription_Active : bool;
  Subscription_Config : option PayloadConfig;
  Subscription_UpdatedAt : option Time;
  Subscription_CreatedAt : option Time
}.

(** [new(Subscription)]: every field has the zero value of its type. *)
Definition zeroSubscription : Subscription :=
  mkSubscription 0 EmptyString EmptyString EmptyString EmptyString
    None false None None None.

(** What [blankSubscription] points to. Nothing assigns to it. *)
Definition blankSubscription : Subscription := zeroSubscription.

(* --------------------------------------------------------------------- *)
(** *** [json.Unmarshal] into the records *)

(** Into a [*time.Time]: [null] sets the pointer to nil, any other value
    goes to [UnmarshalJSON], whose error stops the decoding. *)
Definition decode_Time_ptr (v : json.value) (old : option Time)
    (c : decode.errorContext) : decode.dec (option Time) :=
  match v with
  | json.Null => decode.dret None
  | _ =>
      match Time_UnmarshalJSON v with
      | Ok t => decode.dret (Some t)
      | Err e => decode.dfail e
      end
  end.

(** A field decoder from the decoder of the field's type and the
    field's getter and setter. *)
Definition on_field {T F : Type}
    (d : json.value -> F -> decode.errorContext -> decode.dec F)
    (get : T -> F) (set : T -> F -> T)
  : json.value -> T -> decode.errorContext -> decode.dec T :=
  fun v old c => decode.dbind (d v (get old) c) (fun x => decode.dret (set old x)).

Definition PayloadConfig_fields : list (@decode.field PayloadConfig) :=
  [ ("url", on_field (decode.decode_string "string") PayloadConfig_URL
              (fun p x => mkPayloadConfig x (PayloadConfig_ContentType p)));
    ("content_type",
      on_field (decode.decode_string "gcla.ContentType")
        PayloadConfig_ContentType
        (fun p x => mkPayloadConfig (PayloadConfig_URL p) x)) ].

Definition decode_PayloadConfig
  : json.value -> PayloadConfig -> decode.errorContext -> decode.dec PayloadConfig :=
  decode.decode_struct "PayloadConfig" "gcla.PayloadConfig" PayloadConfig_fields.

Definition decode_PayloadConfig_ptr
  : json.value -> option PayloadConfig -> decode.errorContext
    -> decode.dec (option PayloadConfig) :=
  decode.decode_ptr (mkPayloadConfig EmptyString EmptyString) decode_PayloadConfig.

Definition Subscription_fields : list (@decode.field Subscription) :=
  [ ("id", on_field decode.decode_uint64 Subscription_ID
      (fun s x => mkSubscription x (Subscription_URL s) (Subscription_TestURL s)
         (Subscription_PingURL s) (Subscription_Name s) (Subscription_Events s)
         (Subscription_Active s) (Subscription_Config s)
         (Subscription_UpdatedAt s) (Subscription_CreatedAt s)));
    ("url", on_field (decode.decode_string "string") Subscription_URL
      (fun s x => mkSubscription (Subscription_ID s) x (Subscription_TestURL s)
         (Subscription_PingURL s) (Subscription_Name s) (Subscription_Events s)
         (Subscription_Active s) (Subscription_Config s)
         (Subscription_UpdatedAt s) (Subscription_CreatedAt s)));
    ("test_url", on_field (decode.decode_string "string") Subscription_TestURL
      (fun s x => mkSubscription (Subscription_ID s) (Subscription_URL s) x
         (Subscription_PingURL s) (Subscription_Name s) (Subscription_Events s)
         (Subscription_Active s) (Subscription_Config s)
         (Subscription_UpdatedAt s) (Subscription_CreatedAt s)));
    ("ping_url", on_field (decode.decode_string "string") Subscription_PingURL
      (fun s x => mkSubscription (Subscription_ID s) (Subscription_URL s)
         (Subscription_TestURL s) x (Subscription_Name s) (Subscription_Events s)
         (Subscription_Active s) (Subscription_Config s)
         (Subscription_UpdatedAt s) (Subscription_CreatedAt s)));
    ("name", on_field (decode.decode_string "string") Subscription_Name
      (fun s x => mkSubscription (Subscription_ID s) (Subscription_URL s)
         (Subscription_TestURL s) (Subscription_PingURL s) x
         (Subscription_Events s) (Subscription_Active s) (Subscription_Config s)
         (Subscription_UpdatedAt s) (Subscription_CreatedAt s)));
    ("events",
      on_field
        (decode.decode_slice EmptyString (decode.decode_string "gcla.Event")
           "[]gcla.Event")
        Subscription_Events
      (fun s x => mkSubscription (Subscription_ID s) (Subscription_URL s)
         (Subscription_TestURL s) (Subscription_PingURL s) (Subscription_Name s)
         x (Subscription_Active s) (Subscription_Config s)
         (Subscription_UpdatedAt s) (Subscription_CreatedAt s)));
    ("active", on_field decode.decode_bool Subscription_Active
      (fun s x => mkSubscription (Subscription_ID s) (Subscription_URL s)
         (Subscription_TestURL s) (Subscription_PingURL s) (Subscription_Name s)
         (Subscription_Events s) x (Subscription_Config s)
         (Subscription_UpdatedAt s) (Subscription_CreatedAt s)));
    ("config", on_field decode_PayloadConfig_ptr Subscription_Config
      (fun s x => mkSubscription (Subscription_ID s) (Subscription_URL s)
         (Subscription_TestURL s) (Subscription_PingURL s) (Subscription_Name s)
         (Subscription_Events s) (Subscription_Active s) x
         (Subscription_UpdatedAt s) (Subscription_CreatedAt s)));
    ("updated_at", on_field decode_Time_ptr Subscription_UpdatedAt
      (fun s x => mkSubscription (Subscription_ID s) (Subscription_URL s)
         (Subscription_TestURL s) (Subscription_PingURL s) (Subscription_Name s)
         (Subscription_Events s) (Subscription_Active s) (Subscription_Config s)
         x (Subscription_CreatedAt s)));
    ("created_at", on_field decode_Time_ptr Subscription_CreatedAt
      (fun s x => mkSubscription (Subscription_ID s) (Subscription_URL s)
         (Subscription_TestURL s) (Subscription_PingURL s) (Subscription_Name s)
         (Subscription_Events s) (Subscription_Active s) (Subscription_Config s)
         (Subscription_UpdatedAt s) x)) ].

Definition decode_Subscription
  : json.value -> Subscription -> decode.errorContext -> decode.dec Subscription :=
  decode.decode_struct "Subscription" "gcla.Subscription" Subscription_fields.

(** [json.Unmarshal(blob, subs)] for [subs] of type [*Subscription]. *)
Definition Unmarshal_Subscription (blob : string) (subs : Subscription)
  : result Subscription :=
  decode.Unmarshal decode_Subscription blob subs.

(* --------------------------------------------------------------------- *)
(** *** [reflect.DeepEqual] *)

(** Two pointers: both nil, or both set with deeply equal targets. *)
Definition DeepEqual_ptr {A} (eq : A -> A -> bool) (x y : option A) : bool :=
  match x, y with
  | None, None => true
  | Some a, Some b => eq a b
  | _, _ => false
  end.

Fixpoint DeepEqual_list {A} (eq : A -> A -> bool) (x y : list A) : bool :=
  match x, y with
  | [], [] => true
  | a :: x', b :: y' => eq a b && DeepEqual_list eq x' y'
  | _, _ => false
  end.

(** Two slices: both nil, or both not nil with the same length and
    deeply equal elements. A nil slice and an empty slice differ. *)
Definition DeepEqual_slice {A} (eq : A -> A -> bool)
    (x y : option (list A)) : bool :=
  DeepEqual_ptr (DeepEqual_list eq) x y.

Definition DeepEqual_PayloadConfig (x y : PayloadConfig) : bool :=
  String.eqb (PayloadConfig_URL x) (PayloadConfig_URL y)
  && String.eqb (PayloadConfig_ContentType x) (PayloadConfig_ContentType y).

(** [reflect.DeepEqual(x, y)] for two pointers to subscriptions, neither
    nil. *)
Definition DeepEqual_Subscription (x y : Subscription) : bool :=
  (Subscription_ID x =? Subscription_ID y)
  && String.eqb (Subscription_URL x) (Subscription_URL y)
  && String.eqb (Subscription_TestURL x) (Subscription_TestURL y)
  && String.eqb (Subscription_PingURL x) (Subscription_PingURL y)
  && String.eqb (Subscription_Name x) (Subscription_Name y)
  && DeepEqual_slice String.eqb (Subscription_Events x) (Subscription_Events y)
  && Bool.eqb (Subscription_Active x) (Subscription_Active y)
  && DeepEqual_ptr DeepEqual_PayloadConfig
       (Subscription_Config x) (Subscription_Config y)
  && DeepEqual_ptr Time_DeepEqual
       (Subscription_UpdatedAt x) (Subscription_UpdatedAt y)
  && DeepEqual_ptr Time_DeepEqual
       (Subscription_CreatedAt x) (Subscription_CreatedAt y).

(* --------------------------------------------------------------------- *)
(** *** The client *)

(** [c.SetHTTPRoundTripper(rt)] *)
Definition SetHTTPRoundTripper (c : Client) (rt' : option http.RoundTripper)
  : Client :=
  mkClient rt' (apiKey c).

(** [c.httpClient()] *)
Definition httpClient (c : Client) : http.Client :=
  let rt := rt c in
  http.mkClient rt.

(** [c.doHTTPReq(req)]: the body read (a nil slice of bytes is the empty
    text), the header of the response, the error. *)
Definition doHTTPReq (c : Client) (req : http.Request) (w : http.World)
  : (string * option http.Header * option error) * http.World :=
  let req :=
    http.Request_Header_Add req "Accept" "application/vnd.github.v3+json" in
  let req :=
    let apiKey := apiKey c in
    if negb (String.eqb apiKey EmptyString)
    then http.Request_Header_Add req "Authorization" ("token " +:+ apiKey)
    else req in
  match http.Client_Do DefaultTransport follow (httpClient c) req w with
  | (Err err, w') => ((EmptyString, None, Some err), w')
  | (Ok res, w') =>
      if negb (otils.StatusOK (http.StatusCode res))
      then ((EmptyString, Some (http.RespHeader res),
             Some (errors_New (http.Status res))), w')
      else
        match http.ioutil_ReadAll (http.RespBody res) with
        | (_, Some err) =>
            ((EmptyString, Some (http.RespHeader res), Some err), w')
        | (blob, None) => ((blob, Some (http.RespHeader res), None), w')
        end
  end.

(** [fmt.Sprintf("%s/repos/%s/%s/hooks", baseURL, rsr.Owner, rsr.Repo)] *)
Definition fullURL (rsr : RepoSubscribeRequest) : string :=
  baseURL +:+ "/repos/" +:+ Owner rsr +:+ "/" +:+ Repo rsr +:+ "/hooks".

(** [c.SubscribeToRepo(rsr)] *)
Definition SubscribeToRepo (c : Client) (rsr : RepoSubscribeRequest)
    (w : http.World) : (option Subscription * option error) * http.World :=
  match Marshal_SubscribeRequest (HookSubscription rsr) with
  | Err err => ((None, Some err), w)
  | Ok blob =>
      match http.NewRequest "POST" (fullURL rsr) (http.bytes_NewReader blob) with
      | Err err => ((None, Some err), w)
      | Ok req =>
          match doHTTPReq c req w with
          | ((_, _, Some err), w') => ((None, Some err), w')
          | ((blob, _, None), w') =>
              let subs := zeroSubscription in
              match Unmarshal_Subscription blob subs with
              | Err err => ((None, Some err), w')
              | Ok subs =>
                  if DeepEqual_Subscription subs blankSubscription
                  then ((None, Some errBlankSubscription), w')
                  else ((Some subs, None), w')
              end
          end
      end
  end.

(** [fmt.Errorf("expecting %q to have been set in your environment",
    gclaEnvKey)] *)
Definition errNoKey : error :=
  errors_New ("expecting " +:+ strconv_Quote gclaEnvKey
              +:+ " to have been set in your environment").

(** [NewClientFromEnv()] in the environment [env]. *)
Definition NewClientFromEnv (env : Env) : option Client * option error :=
  let apiKey := otils.EnvOrAlternates env gclaEnvKey [] in
  if String.eqb apiKey EmptyString
  then (None, Some errNoKey)
  else (Some (mkClient None apiKey), None).

(* ===================================================================== *)
(** ** cmd/gcla-server: the webhook receiver *)
(* ===================================================================== *)

Definition Type_ : Type := string.

Record Hook : Type := mkHook {
  Hook_ID : Z;
  Hook_URL : string;
  Hook_TestURL : string;
  Hook_PingURL : string;
  Hook_Name : string;
  Hook_Events : option (list string);
  Hook_Active : bool;
  Hook_Config : option PayloadConfig;
  Hook_UpdatedAt : option Time;
  Hook_CreatedAt : option Time;
  Hook_Type : Type_;
  Hook_AppID : string
}.

Record pingPayload : Type := mkPingPayload {
  Zen : string;
  HookID : string;
  Hook_ : option Hook
}.

(** [new(pingPayload)] *)
Definition zeroPingPayload : pingPayload :=
  mkPingPayload EmptyString EmptyString None.

Definition zeroHook : Hook :=
  mkHook 0 EmptyString EmptyString EmptyString EmptyString None false None
    None None EmptyString EmptyString.

Definition Hook_fields : list (@decode.field Hook) :=
  [ ("id", on_field decode.decode_uint64 Hook_ID
      (fun h x => mkHook x (Hook_URL h) (Hook_TestURL h) (Hook_PingURL h)
         (Hook_Name h) (Hook_Events h) (Hook_Active h) (Hook_Config h)
         (Hook_UpdatedAt h) (Hook_CreatedAt h) (Hook_Type h) (Hook_AppID h)));
    ("url", on_field (decode.decode_string "string") Hook_URL
      (fun h x => mkHook (Hook_ID h) x (Hook_TestURL h) (Hook_PingURL h)
         (Hook_Name h) (Hook_Events h) (Hook_Active h) (Hook_Config h)
         (Hook_UpdatedAt h) (Hook_CreatedAt h) (Hook_Type h) (Hook_AppID h)));
    ("test_url", on_field (decode.decode_string "string") Hook_TestURL
      (fun h x => mkHook (Hook_ID h) (Hook_URL h) x (Hook_PingURL h)
         (Hook_Name h) (Hook_Events h) (Hook_Active h) (Hook_Config h)
         (Hook_UpdatedAt h) (Hook_CreatedAt h) (Hook_Type h) (Hook_AppID h)));
    ("ping_url", on_field (decode.decode_string "string") Hook_PingURL
      (fun h x => mkHook (Hook_ID h) (Hook_URL h) (Hook_TestURL h) x
         (Hook_Name h) (Hook_Events h) (Hook_Active h) (Hook_Config h)
         (Hook_UpdatedAt h) (Hook_CreatedAt h) (Hook_Type h) (Hook_AppID h)));
    ("name", on_field (decode.decode_string "string") Hook_Name
      (fun h x => mkHook (Hook_ID h) (Hook_URL h) (Hook_TestURL h)
         (Hook_PingURL h) x (Hook_Events h) (Hook_Active h) (Hook_Config h)
         (Hook_UpdatedAt h) (Hook_CreatedAt h) (Hook_Type h) (Hook_AppID h)));
    ("events",
      on_field
        (decode.decode_slice EmptyString (decode.decode_string "string")
           "[]string")
        Hook_Events
      (fun h x => mkHook (Hook_ID h) (Hook_URL h) (Hook_TestURL h)
         (Hook_PingURL h) (Hook_Name h) x (Hook_Active h) (Hook_Config h)
         (Hook_UpdatedAt h) (Hook_CreatedAt h) (Hook_Type h) (Hook_AppID h)));
    ("active", on_field decode.decode_bool Hook_Active
      (fun h x => mkHook (Hook_ID h) (Hook_URL h) (Hook_TestURL h)
         (Hook_PingURL h) (Hook_Name h) (Hook_Events h) x (Hook_Config h)
         (Hook_UpdatedAt h) (Hook_CreatedAt h) (Hook_Type h) (Hook_AppID h)));
    ("config", on_field decode_PayloadConfig_ptr Hook_Config
      (fun h x => mkHook (Hook_ID h) (Hook_URL h) (Hook_TestURL h)
         (Hook_PingURL h) (Hook_Name h) (Hook_Events h) (Hook_Active h) x
         (Hook_UpdatedAt h) (Hook_CreatedAt h) (Hook_Type h) (Hook_AppID h)));
    ("updated_at", on_field decode_Time_ptr Hook_UpdatedAt
      (fun h x => mkHook (Hook_ID h) (Hook_URL h) (Hook_TestURL h)
         (Hook_PingURL h) (Hook_Name h) (Hook_Events h) (Hook_Active h)
         (Hook_Config h) x (Hook_CreatedAt h) (Hook_Type h) (Hook_AppID h)));
    ("created_at", on_field decode_Time_ptr Hook_CreatedAt
      (fun h x => mkHook (Hook_ID h) (Hook_URL h) (Hook_TestURL h)
         (Hook_PingURL h) (Hook_Name h) (Hook_Events h) (Hook_Active h)
         (Hook_Config h) (Hook_UpdatedAt h) x (Hook_Type h) (Hook_AppID h)));
    ("type", on_field (decode.decode_string "gcla.Type") Hook_Type
      (fun h x => mkHook (Hook_ID h) (Hook_URL h) (Hook_TestURL h)
         (Hook_PingURL h) (Hook_Name h) (Hook_Events h) (Hook_Active h)
         (Hook_Config h) (Hook_UpdatedAt h) (Hook_CreatedAt h) x (Hook_AppID h)));
    ("app_id", on_field (decode.decode_string "string") Hook_AppID
      (fun h x => mkHook (Hook_ID h) (Hook_URL h) (Hook_TestURL h)
         (Hook_PingURL h) (Hook_Name h) (Hook_Events h) (Hook_Active h)
         (Hook_Config h) (Hook_UpdatedAt h) (Hook_CreatedAt h) (Hook_Type h) x)) ].

Definition decode_Hook
  : json.value -> Hook -> decode.errorContext -> decode.dec Hook :=
  decode.decode_struct "Hook" "gcla.Hook" Hook_fields.

Definition pingPayload_fields : list (@decode.field pingPayload) :=
  [ ("zen", on_field (decode.decode_string "string") Zen
      (fun p x => mkPingPayload x (HookID p) (Hook_ p)));
    ("hook_id", on_field (decode.decode_string "string") HookID
      (fun p x => mkPingPayload (Zen p) x (Hook_ p)));
    ("hook", on_field (decode.decode_ptr zeroHook decode_Hook) Hook_
      (fun p x => mkPingPayload (Zen p) (HookID p) x)) ].

Definition decode_pingPayload
  : json.value -> pingPayload -> decode.errorContext -> decode.dec pingPayload :=
  decode.decode_struct "pingPayload" "main.pingPayload" pingPayload_fields.

(** [parseRequest(req, savPtr)] for [savPtr] a pointer to a value [sav]
    that the decoder [d] fills. *)
Definition parseRequest {T : Type}
    (d : json.value -> T -> decode.errorContext -> decode.dec T)
    (req : http.Request) (sav : T) : result T :=
  match http.ioutil_ReadAll (http.Body req) with
  | (_, Some err) => Err err
  | (blob, None) => decode.Unmarshal d blob sav
  end.

(** [pong(w, r)] *)
Definition pong (w : http.ResponseWriter) (r : http.Request)
  : http.ResponseWriter :=
  let pPayload := zeroPingPayload in
  match parseRequest decode_pingPayload r pPayload with
  | Err err => http.Error w (Error err) http.StatusBadRequest
  | Ok _ => w
  end.

(** [handleWebhooks(w, r)] *)
Definition handleWebhooks (w : http.ResponseWriter) (r : http.Request)
  : http.ResponseWriter := w.

(** The handler that [main] registers for a path, by the rules of
    [http.ServeMux], for a path in its clean form (the mux answers any
    other path with a redirect to its clean form and calls no handler):
    ["/ping"] goes to [pong], every other path to the handler of
    ["/"]. *)
Definition route (path : string)
  : http.ResponseWriter -> http.Request -> http.ResponseWriter :=
  if String.eqb path "/ping" then pong else handleWebhooks.

(** The status and the body that the server answers a request with. *)
Definition serve (path : string) (r : http.Request) : Z * string :=
  http.reply (route path http.newResponseWriter r).

(* --------------------------------------------------------------------- *)
(** *** Vocabulary of the properties *)

Definition AcceptV3 : string := "application/vnd.github.v3+json".

(** The transport that carries the requests of a client. *)
Definition transport (c : Client) : http.RoundTripper :=
  default DefaultTransport (rt c).

(** What [Do] returns for a request on the client that [httpClient]
    makes, and the requests that it hands to the transport. *)
Definition Do (c : Client) (req : http.Request)
  : result http.Response * list http.Request :=
  http.Client_do (transport c) follow req.

(** The request [req] as [doHTTPReq] hands it to [Do]: with the header
    of the API version, and with the credential when the client has
    one. *)
Definition withHeaders (c : Client) (req : http.Request) : http.Request :=
  let req := http.Request_Header_Add req "Accept" AcceptV3 in
  if negb (String.eqb (apiKey c) EmptyString)
  then http.Request_Header_Add req "Authorization" ("token " +:+ apiKey c)
  else req.

(** The body of the request for [rsr]: the encoding of its subscription
    configuration. *)
Definition requestBody (rsr : RepoSubscribeRequest) : string :=
  match Marshal_SubscribeRequest (HookSubscription rsr) with
  | Ok blob => blob
  | Err _ => EmptyString
  end.

(** The request that [SubscribeToRepo] builds for [rsr], before
    [doHTTPReq] adds its headers. *)
Definition newRequest (rsr : RepoSubscribeRequest) : result http.Request :=
  http.NewRequest "POST" (fullURL rsr) (http.bytes_NewReader (requestBody rsr)).

(** At least one field of the subscription is not the zero value of its
    type. *)
Definition nonzero (s : Subscription) : Prop :=
  Subscription_ID s <> 0 \/ Subscription_URL s <> EmptyString
  \/ Subscription_TestURL s <> EmptyString
  \/ Subscription_PingURL s <> EmptyString
  \/ Subscription_Name s <> EmptyString
  \/ Subscription_Events s <> None
  \/ Subscription_Active s <> false
  \/ Subscription_Config s <> None
  \/ Subscription_UpdatedAt s <> None
  \/ Subscription_CreatedAt s <> None.


(* --------------------------------------------------------------------- *)
(** *** Vocabulary of the further properties *)

(** The bytes of the names that GitHub gives to owners and repositories:
    letters, digits, ['-'], ['_'] and ['.']. *)
Definition nameByte (c : ascii) : bool :=
  in_range "a" "z" c || in_range "A" "Z" c || isDigit c
  || byte_eqb c "-" || byte_eqb c "_" || byte_eqb c ".".

Definition isName (s : string) : bool :=
  forallb nameByte (bytes_of_string s).

(** A byte that passes every check of [url.Parse]: not a control byte and
    none of ['#'], ['?'] and ['%']. *)
Definition urlPlainByte (c : ascii) : bool :=
  negb ((byte_val c <? 32) || (byte_val c =? 127) || byte_eqb c "#"
        || byte_eqb c "?" || byte_eqb c "%").


(** A byte that the JSON encoder copies as it is into a string literal and
    that the decoder reads back as it is: printable ASCII other than the
    double quote, the backslash, ['<'], ['>'] and ['&']. *)
Definition plainByte (c : ascii) : bool :=
  json.htmlSafe c && (byte_val c <? utf8.RuneSelf).

Definition plain (s : string) : bool :=
  forallb plainByte (bytes_of_string s).

(** A scanner that has met no error and has not ended. *)
Definition scanning (f : json.stepfn) (ps : list json.pstate) (b : Z)
  : json.scanner :=
  json.mkScanner f false ps None b.

(** The states in which a double quote opens a string literal. *)
Definition opensString (f : json.stepfn) : Prop :=
  f = json.stateBeginValue \/ f = json.stateBeginValueOrEmpty
  \/ f = json.stateBeginString \/ f = json.stateBeginStringOrEmpty.

(** The text [vt] is scanned as one value: from a state that expects a
    value, inside an object or an array nested less than [10000 - d] deep,
    the scanner comes to the state that follows a value. *)
Definition ScanV (d : nat) (vt : string) : Prop :=
  forall (f : json.stepfn) (ps : list json.pstate) (b : Z),
    f = json.stateBeginValue \/ f = json.stateBeginValueOrEmpty ->
    (0 < length ps)%nat -> Z.of_nat (length ps) + Z.of_nat d < 10000 ->
    exists b', forall rest,
      json.scan_all (scanning f ps b) (vt +:+ rest)
      = json.scan_all (scanning json.stateEndValue ps b') rest.

(** The text [vt] is parsed as the value [v], with the fuel of its
    length. *)
Definition ParseV (vt : string) (v : json.value) : Prop :=
  forall (fuel : nat) (rest : string),
    (String.length vt <= fuel)%nat ->
    json.parseValue fuel (vt +:+ rest) = Some (v, rest).

(** A member of an object: its key, the text of its value and the value
    that the text denotes. *)
Definition part : Type := string * string * json.value.

Definition partText (m : part) : option (string * string) :=
  Some (fst (fst m), snd (fst m)).

Definition partTree (m : part) : string * json.value := (fst (fst m), snd m).

(** A member whose key is plain and whose text is scanned and parsed as
    its value, [d] being the depth of the nesting inside the value. *)
Definition goodPart (d : nat) (m : part) : Prop :=
  plain (fst (fst m)) = true /\ ScanV d (snd (fst m))
  /\ ParseV (snd (fst m)) (snd m).

Definition stringPart (key s : string) : option part :=
  if String.eqb s EmptyString then None
  else Some (key, json.encodeString s, json.Str s).

Definition parts_PayloadConfig (p : PayloadConfig) : list part :=
  omap id
    [ stringPart "url" (PayloadConfig_URL p);
      stringPart "content_type" (PayloadConfig_ContentType p) ].

Definition eventsText (es : list Event) : string :=
  "[" +:+ decode.strings_Join (map json.encodeString es) "," +:+ "]".

Definition parts_SubscribeRequest (s : SubscribeRequest) : list part :=
  omap id
    [ stringPart "name" (SubscribeRequest_Name s);
      (if SubscribeRequest_Active s
       then Some ("active", "true", json.Bool true) else None);
      (match SubscribeRequest_Events s with
       | Some (e :: es) =>
           Some ("events", eventsText (e :: es),
                 json.Array (map json.Str (e :: es)))
       | _ => None
       end);
      (match SubscribeRequest_Config s with
       | Some p =>
           Some ("config", encode_PayloadConfig p,
                 json.Object (map partTree (parts_PayloadConfig p)))
       | None => None
       end) ].

(** A configuration all of whose texts are made of plain bytes. *)
Definition plainConfig (s : SubscribeRequest) : bool :=
  plain (SubscribeRequest_Name s)
  && forallb plain (default [] (SubscribeRequest_Events s))
  && match SubscribeRequest_Config s with
     | Some p =>
         plain (PayloadConfig_URL p) && plain (PayloadConfig_ContentType p)
     | None => true
     end.

(** The subscription that is decoded from the encoding of a
    configuration: the name, the flag, the events and the delivery
    configuration come back, an empty list of events as a nil slice, and
    every other field is zero. *)
Definition echoed (s : SubscribeRequest) : Subscription :=
  mkSubscription 0 EmptyString EmptyString EmptyString
    (SubscribeRequest_Name s)
    (match SubscribeRequest_Events s with
     | Some (e :: es) => Some (e :: es)
     | _ => None
     end)
    (SubscribeRequest_Active s)
    (SubscribeRequest_Config s)
    None None.

(** A transport that answers [201 Created] with the body of the request
    for a body. *)
Definition echoTransport : http.RoundTripper :=
  fun req => Ok (http.mkResponse "201 Created" 201 ∅ (http.Body req)).

(** The text of a member of an object. *)
Definition memberText (m : part) : string :=
  json.encodeString (fst (fst m)) +:+ ":" +:+ snd (fst m).

(* ===================================================================== *)
(** ** Properties *)
(* ===================================================================== *)

Lemma append_cons (x : ascii) (a b : string) :
  String x a +:+ b = String x (a +:+ b).
Proof. reflexivity. Qed.

Lemma append_assoc (a b c : string) : (a +:+ b) +:+ c = a +:+ (b +:+ c).
Proof.
  induction a as [|x a IH]; [reflexivity|].
  rewrite !append_cons, IH. reflexivity.
Qed.

Lemma append_nil_r (a : string) : a +:+ EmptyString = a.
Proof.
  induction a as [|x a IH]; [reflexivity|].
  rewrite append_cons, IH. reflexivity.
Qed.

Lemma length_append (a b : string) :
  String.length (a +:+ b) = (String.length a + String.length b)%nat.
Proof.
  induction a as [|x a IH]; [reflexivity|].
  rewrite append_cons. cbn [String.length]. rewrite IH. reflexivity.
Qed.

Lemma prefix_refl (s : string) : String.prefix s s = true.
Proof.
  induction s as [|c s IH]; simpl; [reflexivity|].
  destruct (ascii_dec c c); [exact IH | congruence].
Qed.

Lemma strings_Contains_prefix (s sub : string) :
  String.prefix sub s = true -> strings_Contains s sub = true.
Proof. intros H. destruct s; cbn [strings_Contains]; rewrite H; reflexivity. Qed.

Lemma strings_Contains_refl (s : string) : strings_Contains s s = true.
Proof. apply strings_Contains_prefix, prefix_refl. Qed.

Lemma Marshal_requestBody (rsr : RepoSubscribeRequest) :
  Marshal_SubscribeRequest (HookSubscription rsr) = Ok (requestBody rsr).
Proof. unfold requestBody. destruct (HookSubscription rsr); reflexivity. Qed.

Lemma DeepEqual_blank (s : Subscription) :
  DeepEqual_Subscription s blankSubscription = true <-> s = blankSubscription.
Proof.
  split.
  - destruct s as [i u t p n e a c ua ca]. unfold DeepEqual_Subscription. simpl.
    rewrite !andb_true_iff. intros [[[[[[[[[Hi Hu] Ht] Hp] Hn] He] Ha] Hc] Hua] Hca].
    apply Z.eqb_eq in Hi. apply String.eqb_eq in Hu, Ht, Hp, Hn.
    apply Bool.eqb_prop in Ha.
    destruct e; [discriminate|]. destruct c; [discriminate|].
    destruct ua; [discriminate|]. destruct ca; [discriminate|].
    subst. reflexivity.
  - intros ->. reflexivity.
Qed.

Lemma nonzero_not_blank (s : Subscription) :
  nonzero s -> DeepEqual_Subscription s blankSubscription = false.
Proof.
  intros Hnz. destruct (DeepEqual_Subscription s blankSubscription) eqn:E; [|reflexivity].
  apply DeepEqual_blank in E. subst s. unfold nonzero in Hnz. simpl in Hnz.
  intuition congruence.
Qed.

(** A subscription has a field that is not zero, or it is the zero
    subscription. *)
Lemma nonzero_or_zero (s : Subscription) : nonzero s \/ s = zeroSubscription.
Proof.
  destruct s as [i u t p n e a c ua ca]. unfold nonzero. cbn.
  destruct (Z.eq_dec i 0) as [->|]; [|tauto].
  destruct (string_dec u EmptyString) as [->|]; [|tauto].
  destruct (string_dec t EmptyString) as [->|]; [|tauto].
  destruct (string_dec p EmptyString) as [->|]; [|tauto].
  destruct (string_dec n EmptyString) as [->|]; [|tauto].
  destruct e; [left; do 5 right; left; discriminate|].
  destruct a; [left; do 6 right; left; discriminate|].
  destruct c; [left; do 7 right; left; discriminate|].
  destruct ua; [left; do 8 right; left; discriminate|].
  destruct ca; [left; do 9 right; discriminate|].
  right. reflexivity.
Qed.

(** A response of the transport with a status that is no redirect is
    what [Do] returns, after that one request. *)
Lemma Do_answer (c : Client) (req : http.Request) (res : http.Response) :
  transport c req = Ok res ->
  http.isRedirect (http.StatusCode res) = false ->
  Do c req = (Ok res, [req]).
Proof.
  intros Hrt Hfinal. unfold Do, http.Client_do. rewrite Hrt, Hfinal.
  reflexivity.
Qed.

(** An error of the transport on the request comes back wrapped, after
    that one request. *)
Lemma Do_error (c : Client) (req : http.Request) (err : error) :
  transport c req = Err err ->
  Do c req
  = (Err (url_Error (http.urlErrorOp (http.Method req))
            (url.URL_String (http.URL req)) err), [req]).
Proof. intros Hrt. unfold Do, http.Client_do. rewrite Hrt. reflexivity. Qed.


(** No status of the 2xx range is a redirect. *)
Lemma StatusOK_final (code : Z) :
  otils.StatusOK code = true -> http.isRedirect code = false.
Proof.
  unfold otils.StatusOK, http.isRedirect. intros H.
  apply andb_true_iff in H. destruct H as [Hlo Hhi].
  apply Z.leb_le in Hlo, Hhi. cbn [existsb].
  repeat (apply orb_false_iff; split); try reflexivity; apply Z.eqb_neq; lia.
Qed.

Lemma Client_Do_Do (c : Client) (req : http.Request) (w : http.World) :
  http.Client_Do DefaultTransport follow (httpClient c) req w
  = (fst (Do c req),
     http.mkWorld (http.sent w ++ [req]) (http.trips w ++ snd (Do c req))).
Proof.
  unfold http.Client_Do, Do, httpClient, transport. cbn [http.Transport].
  destruct (http.Client_do _ follow req) as [res reqs]. reflexivity.
Qed.

(** What [SubscribeToRepo] does once its request is built: one call of
    [Do], then the reading of the answer. *)
Lemma SubscribeToRepo_sends c rsr w req :
  newRequest rsr = Ok req ->
  SubscribeToRepo c rsr w =
    (match fst (Do c (withHeaders c req)) with
     | Err err => (None, Some err)
     | Ok res =>
         if negb (otils.StatusOK (http.StatusCode res))
         then (None, Some (errors_New (http.Status res)))
         else
           match http.ioutil_ReadAll (http.RespBody res) with
           | (_, Some err) => (None, Some err)
           | (blob, None) =>
               match Unmarshal_Subscription blob zeroSubscription with
               | Err err => (None, Some err)
               | Ok subs =>
                   if DeepEqual_Subscription subs blankSubscription
                   then (None, Some errBlankSubscription)
                   else (Some subs, None)
               end
           end
     end,
     http.mkWorld (http.sent w ++ [withHeaders c req])
       (http.trips w ++ snd (Do c (withHeaders c req)))).
Proof.
  intros Hreq. unfold SubscribeToRepo, newRequest in *.
  rewrite Marshal_requestBody, Hreq.
  unfold doHTTPReq. fold AcceptV3. fold (withHeaders c req).
  rewrite Client_Do_Do. unfold http.ioutil_ReadAll.
  destruct (fst (Do c (withHeaders c req))) as [res|err]; [|reflexivity].
  destruct (negb (otils.StatusOK (http.StatusCode res))); [reflexivity|].
  destruct (http.readErr (http.RespBody res)) as [err|]; [reflexivity|].
  destruct (Unmarshal_Subscription _ zeroSubscription) as [subs|err];
    [|reflexivity].
  destruct (DeepEqual_Subscription subs blankSubscription); reflexivity.
Qed.

(** The same when the transport answers the request with a status of
    the 2xx range: [Do] returns that answer. *)
Lemma SubscribeToRepo_answered c rsr w req res :
  newRequest rsr = Ok req ->
  transport c (withHeaders c req) = Ok res ->
  otils.StatusOK (http.StatusCode res) = true ->
  fst (SubscribeToRepo c rsr w) =
    match http.ioutil_ReadAll (http.RespBody res) with
    | (_, Some err) => (None, Some err)
    | (blob, None) =>
        match Unmarshal_Subscription blob zeroSubscription with
        | Err err => (None, Some err)
        | Ok subs =>
            if DeepEqual_Subscription subs blankSubscription
            then (None, Some errBlankSubscription)
            else (Some subs, None)
        end
    end.
Proof.
  intros Hreq Hrt Hok.
  rewrite (SubscribeToRepo_sends c rsr w req Hreq).
  rewrite (Do_answer c _ res Hrt (StatusOK_final _ Hok)). cbn [fst].
  rewrite Hok. reflexivity.
Qed.

Lemma SubscribeToRepo_no_request c rsr w err :
  newRequest rsr = Err err ->
  SubscribeToRepo c rsr w = ((None, Some err), w).
Proof.
  intros Hreq. unfold SubscribeToRepo, newRequest in *.
  rewrite Marshal_requestBody, Hreq. reflexivity.
Qed.

(* --------------------------------------------------------------------- *)
(** *** The subscription call *)

(** C1. When the transport answers the request with a 2xx status and a
    body that decodes to a subscription with at least one field that is
    not zero, [SubscribeToRepo] returns exactly that subscription and no
    error. *)
Theorem SubscribeToRepo_returns_decoded
    (c : Client) (rsr : RepoSubscribeRequest) (w : http.World)
    (req : http.Request) (res : http.Response) (blob : string)
    (subs : Subscription) :
  newRequest rsr = Ok req ->
  transport c (withHeaders c req) = Ok res ->
  otils.StatusOK (http.StatusCode res) = true ->
  http.ioutil_ReadAll (http.RespBody res) = (blob, None) ->
  Unmarshal_Subscription blob zeroSubscription = Ok subs ->
  nonzero subs ->
  fst (SubscribeToRepo c rsr w) = (Some subs, None).
Proof.
  intros Hreq Hrt Hok Hread Hdec Hnz.
  rewrite (SubscribeToRepo_answered c rsr w req res Hreq Hrt Hok), Hread, Hdec.
  rewrite (nonzero_not_blank subs Hnz). reflexivity.
Qed.

(** C2. When the transport answers with a 2xx status and a body that
    decodes to a subscription deeply equal to the zero subscription, as
    the body [{}] does, [SubscribeToRepo] returns no subscription and the
    error [errBlankSubscription], whose text is "no subscription could be
    parsed". *)
Theorem SubscribeToRepo_rejects_blank
    (c : Client) (rsr : RepoSubscribeRequest) (w : http.World)
    (req : http.Request) (res : http.Response) (blob : string) :
  newRequest rsr = Ok req ->
  transport c (withHeaders c req) = Ok res ->
  otils.StatusOK (http.StatusCode res) = true ->
  http.ioutil_ReadAll (http.RespBody res) = (blob, None) ->
  (blob = "{}" \/
   exists subs, Unmarshal_Subscription blob zeroSubscription = Ok subs
                /\ DeepEqual_Subscription subs blankSubscription = true) ->
  fst (SubscribeToRepo c rsr w) = (None, Some errBlankSubscription)
  /\ Error errBlankSubscription = "no subscription could be parsed".
Proof.
  intros Hreq Hrt Hok Hread Hblank. split; [|reflexivity].
  assert (Hdec : exists subs,
             Unmarshal_Subscription blob zeroSubscription = Ok subs
             /\ DeepEqual_Subscription subs blankSubscription = true).
  { destruct Hblank as [-> | H]; [|exact H].
    exists blankSubscription. split; reflexivity. }
  destruct Hdec as (subs & Hdec & Heq).
  rewrite (SubscribeToRepo_answered c rsr w req res Hreq Hrt Hok), Hread, Hdec.
  rewrite Heq. reflexivity.
Qed.

(** C3, amended. When the response that [Do] returns has a status
    outside the 2xx range, [SubscribeToRepo] fails, the text of the error
    is the status line of that response, and nothing else of the
    response, its body included, has a part in the result. [Do] returns
    the response of the transport to the request whenever its status is
    none of 301, 302, 303, 307 and 308. *)
Theorem SubscribeToRepo_fails_on_status
    (c : Client) (rsr : RepoSubscribeRequest) (w : http.World)
    (req : http.Request) (res : http.Response) :
  newRequest rsr = Ok req ->
  fst (Do c (withHeaders c req)) = Ok res ->
  otils.StatusOK (http.StatusCode res) = false ->
  (exists err, fst (SubscribeToRepo c rsr w) = (None, Some err)
               /\ Error err = http.Status res
               /\ strings_Contains (Error err) (http.Status res) = true)
  /\ (forall (c' : Client) (res' : http.Response),
        fst (Do c' (withHeaders c' req)) = Ok res' ->
        http.StatusCode res' = http.StatusCode res ->
        http.Status res' = http.Status res ->
        fst (SubscribeToRepo c' rsr w) = fst (SubscribeToRepo c rsr w))
  /\ (forall (c' : Client) (res' : http.Response),
        transport c' (withHeaders c' req) = Ok res' ->
        http.isRedirect (http.StatusCode res') = false ->
        fst (Do c' (withHeaders c' req)) = Ok res').
Proof.
  intros Hreq Hdo Hbad. split; [|split].
  - exists (errors_New (http.Status res)).
    rewrite (SubscribeToRepo_sends c rsr w req Hreq), Hdo, Hbad.
    split; [reflexivity|]. split; [reflexivity|]. apply strings_Contains_refl.
  - intros c' res' Hdo' Hcode Hstatus.
    rewrite (SubscribeToRepo_sends c rsr w req Hreq), Hdo, Hbad.
    rewrite (SubscribeToRepo_sends c' rsr w req Hreq), Hdo', Hcode, Hbad.
    cbn [fst negb]. rewrite Hstatus. reflexivity.
  - intros c' res' Hrt Hfinal.
    rewrite (Do_answer c' _ res' Hrt Hfinal). reflexivity.
Qed.

(** The encoding of a configuration none of whose fields is empty: an
    object with the keys [name], [active], [events] and [config], the
    last an object with the keys [url] and [content_type]. *)
Lemma encode_SubscribeRequest_populated
    (name : string) (e : Event) (es : list Event) (u ct : string) :
  name <> EmptyString -> u <> EmptyString -> ct <> EmptyString ->
  encode_SubscribeRequest
    (mkSubscribeRequest name true (Some (e :: es))
       (Some (mkPayloadConfig u ct)))
  = "{" +:+
      decode.strings_Join
        [ json.encodeString "name" +:+ ":" +:+ json.encodeString name;
          json.encodeString "active" +:+ ":" +:+ "true";
          json.encodeString "events" +:+ ":" +:+
            ("[" +:+ decode.strings_Join (map json.encodeString (e :: es)) ","
             +:+ "]");
          json.encodeString "config" +:+ ":" +:+
            ("{" +:+
               decode.strings_Join
                 [ json.encodeString "url" +:+ ":" +:+ json.encodeString u;
                   json.encodeString "content_type" +:+ ":"
                   +:+ json.encodeString ct ] ","
             +:+ "}") ] ","
    +:+ "}".
Proof.
  intros Hn Hu Hc. apply String.eqb_neq in Hn, Hu, Hc.
  unfold encode_SubscribeRequest, encode_PayloadConfig, encodeObject,
    omitempty_string.
  cbn [SubscribeRequest_Name SubscribeRequest_Active SubscribeRequest_Events
       SubscribeRequest_Config PayloadConfig_URL PayloadConfig_ContentType].
  rewrite Hn, Hu, Hc. reflexivity.
Qed.

(* --------------------------------------------------------------------- *)
(** *** The requests that the client issues *)

(** The header that [doHTTPReq] sends for a request that came without
    one, as [http.NewRequest] makes it. *)
Lemma withHeaders_fresh (c : Client) (req : http.Request) :
  http.Header_ req = ∅ ->
  http.Header_Values (http.Header_ (withHeaders c req)) "Accept" = [AcceptV3]
  /\ (apiKey c <> EmptyString ->
      http.Header_Values (http.Header_ (withHeaders c req)) "Authorization"
      = ["token " +:+ apiKey c])
  /\ (apiKey c = EmptyString ->
      http.Header_ (withHeaders c req) !! "Authorization" = None).
Proof.
  intros Hempty.
  unfold withHeaders, http.Request_Header_Add, http.Header_Values,
    http.Header_Add.
  destruct (String.eqb (apiKey c) EmptyString) eqn:Hkey; cbn [negb http.Header_];
    rewrite Hempty.
  change (http.CanonicalMIMEHeaderKey "Accept") with "Accept".
  change (http.CanonicalMIMEHeaderKey "Authorization") with "Authorization".
  - apply String.eqb_eq in Hkey. split; [|split].
    + rewrite lookup_insert_eq. reflexivity.
    + intros Hne. congruence.
    + intros _. rewrite lookup_insert_ne by discriminate. apply lookup_empty.
  - apply String.eqb_neq in Hkey. split; [|split].
    + rewrite lookup_insert_ne by discriminate. rewrite lookup_insert_eq.
      reflexivity.
    + intros _. rewrite lookup_insert_eq.
      rewrite lookup_insert_ne by discriminate. rewrite lookup_empty.
      reflexivity.
    + intros He. congruence.
Qed.

(** [doHTTPReq] changes nothing but the header of the request. *)
Lemma withHeaders_frame (c : Client) (req : http.Request) :
  http.Method (withHeaders c req) = http.Method req
  /\ http.URL (withHeaders c req) = http.URL req
  /\ http.Body (withHeaders c req) = http.Body req.
Proof.
  unfold withHeaders.
  destruct (negb (String.eqb (apiKey c) EmptyString)); repeat split.
Qed.

(** A URL that parses is the text it was parsed from. *)
Lemma Parse_Ok (rawURL : string) (u : url.URL) :
  url.Parse rawURL = Ok u -> u = url.mkURL rawURL.
Proof.
  unfold url.Parse. intros H.
  destruct (strings_Cut rawURL "#") as [[a frag] f].
  destruct (url.stringContainsCTLByte a); [discriminate|].
  destruct (strings_Cut a "?") as [[rest q] f'].
  destruct (url.checkEscapes rest); [discriminate|].
  destruct (url.checkEscapes frag); [discriminate|].
  injection H as <-. reflexivity.
Qed.

Lemma NewRequest_fresh (method u : string) (body : http.Reader)
    (req : http.Request) :
  http.NewRequest method u body = Ok req ->
  http.Header_ req = ∅ /\ http.URL req = url.mkURL u /\ http.Body req = body
  /\ http.Method req = (if String.eqb method EmptyString then "GET" else method).
Proof.
  unfold http.NewRequest. intros H.
  destruct (negb (http.validMethod _)); [discriminate|].
  destruct (url.Parse u) as [u'|e] eqn:Hu; [|discriminate].
  apply Parse_Ok in Hu. subst u'. injection H as <-. repeat split.
Qed.

(** The requests that one call hands to [Do]: none when the request
    cannot be built, and otherwise the one request, [POST], with the URL
    of the hooks of the repository, the encoded configuration as its
    body, and the headers of [doHTTPReq]. *)
Lemma SubscribeToRepo_sent (c : Client) (rsr : RepoSubscribeRequest)
    (w : http.World) :
  http.sent (snd (SubscribeToRepo c rsr w)) =
    (http.sent w ++
     match newRequest rsr with
     | Ok req => [withHeaders c req]
     | Err _ => []
     end)%list.
Proof.
  destruct (newRequest rsr) as [req|err] eqn:Hreq.
  - rewrite (SubscribeToRepo_sends c rsr w req Hreq). reflexivity.
  - rewrite (SubscribeToRepo_no_request c rsr w err Hreq).
    cbn [snd]. rewrite app_nil_r. reflexivity.
Qed.


(** The header that [doHTTPReq] sends for any request: the two values
    are added to those the request came with. *)
Lemma withHeaders_any (c : Client) (req : http.Request) :
  In AcceptV3 (http.Header_Values (http.Header_ (withHeaders c req)) "Accept")
  /\ (apiKey c <> EmptyString ->
      In ("token " +:+ apiKey c)
        (http.Header_Values (http.Header_ (withHeaders c req)) "Authorization"))
  /\ (apiKey c = EmptyString ->
      http.Header_ (withHeaders c req) !! "Authorization"
      = http.Header_ req !! "Authorization").
Proof.
  unfold withHeaders, http.Request_Header_Add, http.Header_Values,
    http.Header_Add.
  destruct (String.eqb (apiKey c) EmptyString) eqn:Hkey; cbn [negb http.Header_].
  all: change (http.CanonicalMIMEHeaderKey "Accept") with "Accept".
  all: change (http.CanonicalMIMEHeaderKey "Authorization") with "Authorization".
  - apply String.eqb_eq in Hkey. split; [|split].
    + rewrite lookup_insert_eq. cbn [default from_option id].
      apply in_or_app. right. left. reflexivity.
    + intros Hne. congruence.
    + intros _. rewrite lookup_insert_ne by discriminate. reflexivity.
  - apply String.eqb_neq in Hkey. split; [|split].
    + rewrite lookup_insert_ne by discriminate. rewrite lookup_insert_eq.
      cbn [default from_option id]. apply in_or_app. right. left. reflexivity.
    + intros _. rewrite lookup_insert_eq. cbn [default from_option id].
      apply in_or_app. right. left. reflexivity.
    + intros He. congruence.
Qed.

(** What [doHTTPReq] makes of the result of [Do]. *)
Lemma doHTTPReq_Do (c : Client) (req : http.Request) (w : http.World) :
  doHTTPReq c req w =
    (match fst (Do c (withHeaders c req)) with
     | Err err => (EmptyString, None, Some err)
     | Ok res =>
         if negb (otils.StatusOK (http.StatusCode res))
         then (EmptyString, Some (http.RespHeader res),
               Some (errors_New (http.Status res)))
         else
           match http.ioutil_ReadAll (http.RespBody res) with
           | (_, Some err) =>
               (EmptyString, Some (http.RespHeader res), Some err)
           | (blob, None) => (blob, Some (http.RespHeader res), None)
           end
     end,
     http.mkWorld (http.sent w ++ [withHeaders c req])
       (http.trips w ++ snd (Do c (withHeaders c req)))).
Proof.
  unfold doHTTPReq. fold AcceptV3. fold (withHeaders c req).
  rewrite Client_Do_Do. unfold http.ioutil_ReadAll.
  destruct (fst (Do c (withHeaders c req))) as [res|err]; [|reflexivity].
  destruct (negb (otils.StatusOK (http.StatusCode res))); [reflexivity|].
  destruct (http.readErr (http.RespBody res)); reflexivity.
Qed.

Lemma doHTTPReq_sent (c : Client) (req : http.Request) (w : http.World) :
  http.sent (snd (doHTTPReq c req w)) = (http.sent w ++ [withHeaders c req])%list.
Proof. rewrite doHTTPReq_Do. reflexivity. Qed.

(** C4. Every request that the client hands to [Do] carries
    [Accept: application/vnd.github.v3+json]; it carries
    [Authorization: token k] when the credential [k] of the client is not
    empty, and [doHTTPReq] attaches no [Authorization] header when it is.
    This holds for [doHTTPReq] on any request, and the requests of
    [SubscribeToRepo] carry these headers and no other value of them. *)
Theorem requests_carry_headers (c : Client) (w : http.World) :
  (forall req : http.Request,
     exists r : http.Request,
       http.sent (snd (doHTTPReq c req w)) = (http.sent w ++ [r])%list
       /\ In AcceptV3 (http.Header_Values (http.Header_ r) "Accept")
       /\ (apiKey c <> EmptyString ->
           In ("token " +:+ apiKey c)
             (http.Header_Values (http.Header_ r) "Authorization"))
       /\ (apiKey c = EmptyString ->
           http.Header_ r !! "Authorization"
           = http.Header_ req !! "Authorization"))
  /\ (forall rsr : RepoSubscribeRequest,
       exists issued : list http.Request,
         http.sent (snd (SubscribeToRepo c rsr w)) = (http.sent w ++ issued)%list
         /\ forall r, In r issued ->
              http.Header_Values (http.Header_ r) "Accept" = [AcceptV3]
              /\ (apiKey c <> EmptyString ->
                  http.Header_Values (http.Header_ r) "Authorization"
                  = ["token " +:+ apiKey c])
              /\ (apiKey c = EmptyString ->
                  http.Header_ r !! "Authorization" = None)).
Proof.
  split.
  - intros req. exists (withHeaders c req).
    split; [apply doHTTPReq_sent | apply withHeaders_any].
  - intros rsr. eexists. split; [apply SubscribeToRepo_sent|].
    intros r Hin. destruct (newRequest rsr) as [req|err] eqn:Hreq.
    + destruct Hin as [<- | []]. apply withHeaders_fresh.
      apply NewRequest_fresh in Hreq. apply Hreq.
    + destruct Hin.
Qed.

(* --------------------------------------------------------------------- *)
(** *** Names that make a well-formed URL *)

Lemma bytes_of_string_app (a b : string) :
  bytes_of_string (a +:+ b) = (bytes_of_string a ++ bytes_of_string b)%list.
Proof.
  induction a as [|c a IH]; simpl; [reflexivity | f_equal; exact IH].
Qed.

Lemma nameByte_plain (c : ascii) : nameByte c = true -> urlPlainByte c = true.
Proof.
  destruct c as [[] [] [] [] [] [] [] []]; vm_compute; intros H;
    first [reflexivity | discriminate H].
Qed.

Lemma isName_plain (s : string) :
  isName s = true -> forallb urlPlainByte (bytes_of_string s) = true.
Proof.
  unfold isName. induction s as [|c s IH]; cbn; [reflexivity|].
  rewrite !andb_true_iff. intros [Hc Hs]. split; [|exact (IH Hs)].
  apply nameByte_plain, Hc.
Qed.

Lemma plain_Cut (s : string) (sep : ascii) :
  urlPlainByte sep = false ->
  forallb urlPlainByte (bytes_of_string s) = true ->
  strings_Cut s sep = (s, EmptyString, false).
Proof.
  intros Hsep. induction s as [|c s IH]; cbn; [reflexivity|].
  rewrite andb_true_iff. intros [Hc Hs]. unfold byte_eqb.
  destruct (Ascii.eqb c sep) eqn:E.
  - apply Ascii.eqb_eq in E. subst c. congruence.
  - rewrite (IH Hs). reflexivity.
Qed.

Lemma plain_noCTL (s : string) :
  forallb urlPlainByte (bytes_of_string s) = true ->
  url.stringContainsCTLByte s = false.
Proof.
  induction s as [|c s IH]; cbn; [reflexivity|].
  rewrite andb_true_iff. intros [Hc Hs]. rewrite (IH Hs).
  unfold urlPlainByte in Hc. apply negb_true_iff in Hc.
  rewrite !orb_false_iff in Hc. destruct Hc as [[[[H1 H2] _] _] _].
  rewrite H1, H2. reflexivity.
Qed.

Lemma plain_escapes (s : string) :
  forallb urlPlainByte (bytes_of_string s) = true ->
  url.checkEscapes s = None.
Proof.
  induction s as [|c s IH]; cbn [url.checkEscapes bytes_of_string forallb];
    [reflexivity|].
  rewrite andb_true_iff. intros [Hc Hs].
  unfold urlPlainByte in Hc. apply negb_true_iff in Hc.
  rewrite !orb_false_iff in Hc. destruct Hc as [_ H5].
  rewrite H5. exact (IH Hs).
Qed.

(** [url.Parse] accepts a text without control bytes, ['#'], ['?'] and
    ['%']. *)
Lemma Parse_plain (s : string) :
  forallb urlPlainByte (bytes_of_string s) = true ->
  url.Parse s = Ok (url.mkURL s).
Proof.
  intros H. unfold url.Parse.
  rewrite (plain_Cut s "#" eq_refl H), (plain_noCTL s H).
  rewrite (plain_Cut s "?" eq_refl H), (plain_escapes s H). reflexivity.
Qed.

(** The request for well-formed names. *)
Lemma newRequest_wellformed (o r : string) (cfg : option SubscribeRequest) :
  isName o = true -> isName r = true ->
  newRequest (mkRepoSubscribeRequest o r cfg)
  = Ok (http.mkRequest "POST"
          (url.mkURL ("https://api.github.com/repos/" +:+ o +:+ "/" +:+ r
                      +:+ "/hooks")) ∅
          (http.bytes_NewReader
             (requestBody (mkRepoSubscribeRequest o r cfg)))).
Proof.
  intros Ho Hr.
  set (u := "https://api.github.com/repos/" +:+ o +:+ "/" +:+ r +:+ "/hooks").
  assert (Hu : url.Parse u = Ok (url.mkURL u)).
  { apply Parse_plain. unfold u. rewrite !bytes_of_string_app, !forallb_app.
    rewrite (isName_plain o Ho), (isName_plain r Hr). reflexivity. }
  unfold newRequest, http.NewRequest, fullURL, baseURL. cbn [Owner Repo].
  change (negb (http.validMethod _)) with false. cbv iota.
  change ("https://api.github.com" +:+ "/repos/" +:+ o +:+ "/" +:+ r +:+ "/hooks")
    with u.
  rewrite Hu. reflexivity.
Qed.









(** C6. [NewClientFromEnv] fails, with an error that names
    [GCLA_GITHUB_API_KEY], when that variable is not set or is empty;
    when it is set to a text [k] that is not empty, it returns a client
    that holds [k]. *)
Theorem NewClientFromEnv_reads_key (env : Env) :
  (env !! gclaEnvKey = None \/ env !! gclaEnvKey = Some EmptyString ->
   exists err, NewClientFromEnv env = (None, Some err)
               /\ strings_Contains (Error err) "GCLA_GITHUB_API_KEY" = true)
  /\ (forall k, env !! gclaEnvKey = Some k -> k <> EmptyString ->
      exists c, NewClientFromEnv env = (Some c, None) /\ apiKey c = k).
Proof.
  unfold NewClientFromEnv, otils.EnvOrAlternates, os_Getenv. split.
  - intros [H | H]; rewrite H; cbn; eexists; split; reflexivity.
  - intros k H Hne. rewrite H. cbn [default from_option id].
    apply String.eqb_neq in Hne. rewrite Hne. cbn [negb]. rewrite Hne.
    eexists. split; reflexivity.
Qed.

(** C9. [SetHTTPRoundTripper] sets the transport and leaves the
    credential as it was: afterwards [doHTTPReq] puts the same headers on
    a request, and a call of [SubscribeToRepo] hands the same requests to
    [Do]. *)
Theorem SetHTTPRoundTripper_keeps_key
    (c : Client) (rt' : option http.RoundTripper) :
  rt (SetHTTPRoundTripper c rt') = rt'
  /\ apiKey (SetHTTPRoundTripper c rt') = apiKey c
  /\ (forall req, withHeaders (SetHTTPRoundTripper c rt') req = withHeaders c req)
  /\ (forall rsr w,
        http.sent (snd (SubscribeToRepo (SetHTTPRoundTripper c rt') rsr w))
        = http.sent (snd (SubscribeToRepo c rsr w))).
Proof.
  repeat split. intros rsr w. rewrite !SubscribeToRepo_sent. reflexivity.
Qed.

(* --------------------------------------------------------------------- *)
(** *** The receiver *)

(** C7, amended. For a request to [/ping] whose body is not valid JSON
    for the ping record, the server answers with status 400 and, as the
    body, the message of the decoding error followed by a line feed. *)
Theorem pong_bad_request
    (r : http.Request) (blob : string) (err : error) :
  http.ioutil_ReadAll (http.Body r) = (blob, None) ->
  decode.Unmarshal decode_pingPayload blob zeroPingPayload = Err err ->
  serve "/ping" r = (400, Error err +:+ String "010" EmptyString).
Proof.
  intros Hread Hdec. unfold serve, route, pong, parseRequest.
  cbn [String.eqb Ascii.eqb Bool.eqb]. rewrite Hread, Hdec. reflexivity.
Qed.

(** C10. For a request to [/ping] whose body is valid JSON for the ping
    record, the server answers with status 200 and an empty body: the
    payload decoded is dropped. *)
Theorem pong_ok
    (r : http.Request) (blob : string) (p : pingPayload) :
  http.ioutil_ReadAll (http.Body r) = (blob, None) ->
  decode.Unmarshal decode_pingPayload blob zeroPingPayload = Ok p ->
  serve "/ping" r = (200, EmptyString).
Proof.
  intros Hread Hdec. unfold serve, route, pong, parseRequest.
  cbn [String.eqb Ascii.eqb Bool.eqb]. rewrite Hread, Hdec. reflexivity.
Qed.
(* --------------------------------------------------------------------- *)
(** *** Further properties of the client *)

(** X1. When the transport fails on the request, [SubscribeToRepo]
    returns no subscription and a [*url.Error] that holds the operation
    ["Post"], a URL and the error of the transport; [Do] has been called
    once, and the transport has got that one request and no second one:
    nothing is tried again. *)
Theorem SubscribeToRepo_transport_error
    (c : Client) (rsr : RepoSubscribeRequest) (w : http.World)
    (req : http.Request) (err : error) :
  newRequest rsr = Ok req ->
  transport c (withHeaders c req) = Err err ->
  exists u : string,
    SubscribeToRepo c rsr w
    = ((None, Some (url_Error "Post" u err)),
       http.mkWorld (http.sent w ++ [withHeaders c req])
         (http.trips w ++ [withHeaders c req])).
Proof.
  intros Hreq Hrt. exists (url.URL_String (http.URL req)).
  rewrite (SubscribeToRepo_sends c rsr w req Hreq).
  rewrite (Do_error c _ err Hrt). cbn [fst snd].
  destruct (withHeaders_frame c req) as (Hm & Hu & _). rewrite Hm, Hu.
  apply NewRequest_fresh in Hreq. destruct Hreq as (_ & _ & _ & ->).
  reflexivity.
Qed.

(** X2. When the answer has a 2xx status and the reading of its body
    stops with an error, [SubscribeToRepo] returns that error; the bytes
    read before the error are dropped, valid JSON or not. *)
Theorem SubscribeToRepo_read_error
    (c : Client) (rsr : RepoSubscribeRequest) (w : http.World)
    (req : http.Request) (res : http.Response) (part : string) (err : error) :
  newRequest rsr = Ok req ->
  transport c (withHeaders c req) = Ok res ->
  otils.StatusOK (http.StatusCode res) = true ->
  http.ioutil_ReadAll (http.RespBody res) = (part, Some err) ->
  fst (SubscribeToRepo c rsr w) = (None, Some err).
Proof.
  intros Hreq Hrt Hok Hread.
  rewrite (SubscribeToRepo_answered c rsr w req res Hreq Hrt Hok), Hread.
  reflexivity.
Qed.

(** X3. When the answer has a 2xx status and [json.Unmarshal] rejects
    its body, [SubscribeToRepo] returns no subscription and the error of
    [json.Unmarshal] as it is. *)
Theorem SubscribeToRepo_decode_error
    (c : Client) (rsr : RepoSubscribeRequest) (w : http.World)
    (req : http.Request) (res : http.Response) (blob : string) (err : error) :
  newRequest rsr = Ok req ->
  transport c (withHeaders c req) = Ok res ->
  otils.StatusOK (http.StatusCode res) = true ->
  http.ioutil_ReadAll (http.RespBody res) = (blob, None) ->
  Unmarshal_Subscription blob zeroSubscription = Err err ->
  fst (SubscribeToRepo c rsr w) = (None, Some err).
Proof.
  intros Hreq Hrt Hok Hread Hdec.
  rewrite (SubscribeToRepo_answered c rsr w req res Hreq Hrt Hok), Hread, Hdec.
  reflexivity.
Qed.

(** X4. [SubscribeToRepo] returns either a subscription and a nil error,
    or a nil subscription and an error, never both and never neither; and
    a subscription it returns has a field that is not zero. *)
Theorem SubscribeToRepo_result_shape
    (c : Client) (rsr : RepoSubscribeRequest) (w : http.World) :
  (exists subs, fst (SubscribeToRepo c rsr w) = (Some subs, None)
                /\ nonzero subs)
  \/ (exists err, fst (SubscribeToRepo c rsr w) = (None, Some err)).
Proof.
  destruct (newRequest rsr) as [req|err] eqn:Hreq.
  - rewrite (SubscribeToRepo_sends c rsr w req Hreq). cbn [fst].
    destruct (fst (Do c (withHeaders c req))) as [res|err]; [|eauto].
    destruct (negb (otils.StatusOK (http.StatusCode res))); [eauto|].
    destruct (http.ioutil_ReadAll (http.RespBody res)) as [blob [err|]];
      [eauto|].
    destruct (Unmarshal_Subscription blob zeroSubscription) as [subs|err];
      [|eauto].
    destruct (DeepEqual_Subscription subs blankSubscription) eqn:Hblank;
      [eauto|].
    left. exists subs. split; [reflexivity|].
    destruct (nonzero_or_zero subs) as [Hnz | ->]; [exact Hnz|].
    rewrite (proj2 (DeepEqual_blank zeroSubscription) eq_refl) in Hblank.
    discriminate.
  - rewrite (SubscribeToRepo_no_request c rsr w err Hreq). eauto.
Qed.

(** X5. A call of [SubscribeToRepo] calls [Do] at most once, whatever
    its outcome, and keeps the record of the earlier calls; it does not
    call [Do] exactly when [url.Parse] rejects the URL of the hooks, and
    then its error is the one of [url.Parse] and no request reaches the
    transport. *)
Theorem SubscribeToRepo_single_attempt
    (c : Client) (rsr : RepoSubscribeRequest) (w : http.World) :
  exists issued : list http.Request,
    http.sent (snd (SubscribeToRepo c rsr w)) = (http.sent w ++ issued)%list
    /\ (length issued <= 1)%nat
    /\ (issued = [] <-> exists err, url.Parse (fullURL rsr) = Err err)
    /\ (forall err, url.Parse (fullURL rsr) = Err err ->
        fst (SubscribeToRepo c rsr w) = (None, Some err)
        /\ http.trips (snd (SubscribeToRepo c rsr w)) = http.trips w).
Proof.
  assert (Hnew : newRequest rsr =
                 match url.Parse (fullURL rsr) with
                 | Ok u => Ok (http.mkRequest "POST" u ∅
                                 (http.bytes_NewReader (requestBody rsr)))
                 | Err e => Err e
                 end) by reflexivity.
  eexists. split; [apply SubscribeToRepo_sent|]. rewrite Hnew.
  destruct (url.Parse (fullURL rsr)) as [u|e] eqn:Hu.
  - split; [cbn; lia|]. split.
    + split; [discriminate | intros [err Herr]; discriminate].
    + intros err Herr. discriminate.
  - split; [cbn; lia|]. split.
    + split; [eauto | reflexivity].
    + intros err [= <-].
      rewrite (SubscribeToRepo_no_request c rsr w e Hnew).
      split; reflexivity.
Qed.

(** X6. [doHTTPReq] returns the header of the response that [Do]
    returns, also when the status is not 2xx or the body cannot be read,
    and the error of [Do] without a header when [Do] fails; whenever it
    returns an error, the body it returns is empty. *)
Theorem doHTTPReq_header_and_body
    (c : Client) (req : http.Request) (w : http.World) :
  (forall res, fst (Do c (withHeaders c req)) = Ok res ->
     snd (fst (fst (doHTTPReq c req w))) = Some (http.RespHeader res))
  /\ (forall err, fst (Do c (withHeaders c req)) = Err err ->
      fst (doHTTPReq c req w) = (EmptyString, None, Some err))
  /\ (forall err, snd (fst (doHTTPReq c req w)) = Some err ->
      fst (fst (fst (doHTTPReq c req w))) = EmptyString).
Proof.
  rewrite doHTTPReq_Do. cbn [fst snd]. unfold http.ioutil_ReadAll.
  destruct (fst (Do c (withHeaders c req))) as [res|e].
  - destruct (negb (otils.StatusOK (http.StatusCode res))).
    + split; [intros ? [= <-]; reflexivity|]. split; [discriminate|reflexivity].
    + destruct (http.readErr (http.RespBody res)).
      * split; [intros ? [= <-]; reflexivity|].
        split; [discriminate|reflexivity].
      * split; [intros ? [= <-]; reflexivity|].
        split; [discriminate|discriminate].
  - split; [discriminate|]. split; [intros ? [= <-]; reflexivity|reflexivity].
Qed.

(** X7. [doHTTPReq] adds to the header of the request that it hands to
    [Do] and changes
    nothing else: the method, the URL and the body are those it was given,
    every header other than [Accept] and [Authorization] is as it was, and
    the values these two already had stay in front of the new ones. *)
Theorem doHTTPReq_request_frame
    (c : Client) (req : http.Request) (w : http.World) :
  exists r : http.Request,
    http.sent (snd (doHTTPReq c req w)) = (http.sent w ++ [r])%list
    /\ http.Method r = http.Method req
    /\ http.URL r = http.URL req
    /\ http.Body r = http.Body req
    /\ (forall k, k <> "Accept" -> k <> "Authorization" ->
        http.Header_ r !! k = http.Header_ req !! k)
    /\ http.Header_Values (http.Header_ r) "Accept"
       = (http.Header_Values (http.Header_ req) "Accept" ++ [AcceptV3])%list
    /\ (apiKey c <> EmptyString ->
        http.Header_Values (http.Header_ r) "Authorization"
        = (http.Header_Values (http.Header_ req) "Authorization"
           ++ ["token " +:+ apiKey c])%list).
Proof.
  exists (withHeaders c req). split; [apply doHTTPReq_sent|].
  destruct (withHeaders_frame c req) as (Hm & Hu & Hb).
  split; [exact Hm|]. split; [exact Hu|]. split; [exact Hb|].
  unfold withHeaders, http.Request_Header_Add, http.Header_Values,
    http.Header_Add.
  destruct (String.eqb (apiKey c) EmptyString) eqn:Hkey; cbn [negb http.Header_].
  all: change (http.CanonicalMIMEHeaderKey "Accept") with "Accept".
  all: change (http.CanonicalMIMEHeaderKey "Authorization") with "Authorization".
  - apply String.eqb_eq in Hkey. split; [|split].
    + intros k Ha _. rewrite lookup_insert_ne by congruence. reflexivity.
    + rewrite lookup_insert_eq. reflexivity.
    + intros Hne. congruence.
  - split; [|split].
    + intros k Ha Hb'. rewrite !lookup_insert_ne by congruence. reflexivity.
    + rewrite lookup_insert_ne by discriminate. rewrite lookup_insert_eq.
      reflexivity.
    + intros _. rewrite lookup_insert_eq.
      rewrite lookup_insert_ne by discriminate. reflexivity.
Qed.

(** X8. A client that [NewClientFromEnv] returns holds the value of the
    variable, which is not empty, and has no transport of its own: its
    transport is the default one, and each request that [SubscribeToRepo]
    hands to [Do] carries [Authorization: token] followed by that
    value. *)
Theorem NewClientFromEnv_client
    (env : Env) (c : Client) (rsr : RepoSubscribeRequest) (w : http.World) :
  NewClientFromEnv env = (Some c, None) ->
  apiKey c = os_Getenv env gclaEnvKey
  /\ apiKey c <> EmptyString
  /\ transport c = DefaultTransport
  /\ exists issued : list http.Request,
       http.sent (snd (SubscribeToRepo c rsr w)) = (http.sent w ++ issued)%list
       /\ forall r, In r issued ->
            http.Header_Values (http.Header_ r) "Authorization"
            = ["token " +:+ os_Getenv env gclaEnvKey].
Proof.
  unfold NewClientFromEnv, otils.EnvOrAlternates.
  destruct (String.eqb (os_Getenv env gclaEnvKey) EmptyString) eqn:Hk;
    cbn [negb List.find].
  - rewrite String.eqb_refl. discriminate.
  - rewrite Hk. intros [= <-]. cbn [apiKey rt].
    apply String.eqb_neq in Hk.
    split; [reflexivity|]. split; [exact Hk|]. split; [reflexivity|].
    eexists. split; [apply SubscribeToRepo_sent|].
    intros r Hin. destruct (newRequest rsr) as [req|e] eqn:Hreq; [|destruct Hin].
    destruct Hin as [<- | []].
    apply NewRequest_fresh in Hreq. destruct Hreq as (Hh & _).
    destruct (withHeaders_fresh
                (mkClient None (os_Getenv env gclaEnvKey)) req Hh)
      as (_ & Hauth & _).
    apply Hauth. exact Hk.
Qed.

(* --------------------------------------------------------------------- *)
(** *** Further properties of the receiver *)

(** X9. When the body of a request to [/ping] cannot be read to its end,
    the server answers with status 400 and the text of the reading error
    followed by a line feed; the bytes read before the error are not
    decoded. *)
Theorem pong_read_error
    (r : http.Request) (part : string) (err : error) :
  http.ioutil_ReadAll (http.Body r) = (part, Some err) ->
  serve "/ping" r = (400, Error err +:+ String "010" EmptyString).
Proof.
  intros Hread. unfold serve, route, pong, parseRequest.
  cbn [String.eqb Ascii.eqb Bool.eqb]. rewrite Hread. reflexivity.
Qed.

(** X10. The answer to a request to [/ping] is either status 200 with an
    empty body or status 400 with a text that ends in a line feed, and it
    depends on nothing of the request but its body. *)
Theorem pong_answers
    (r : http.Request) :
  (serve "/ping" r = (200, EmptyString)
   \/ exists err,
        serve "/ping" r = (400, Error err +:+ String "010" EmptyString))
  /\ forall r' : http.Request,
       http.Body r' = http.Body r -> serve "/ping" r' = serve "/ping" r.
Proof.
  split.
  - unfold serve, route, pong. cbn [String.eqb Ascii.eqb Bool.eqb].
    destruct (parseRequest decode_pingPayload r zeroPingPayload) as [p|err].
    + left. reflexivity.
    + right. exists err. reflexivity.
  - intros r' Hbody. unfold serve, route, pong, parseRequest.
    cbn [String.eqb Ascii.eqb Bool.eqb]. rewrite Hbody. reflexivity.
Qed.


(* --------------------------------------------------------------------- *)
(** *** What the decoder keeps true of a record *)

Lemma on_field_inv {T F : Type}
    (d : json.value -> F -> decode.errorContext -> decode.dec F)
    (get : T -> F) (set : T -> F -> T)
    (v : json.value) (old : T) (c : decode.errorContext)
    (saved saved' : option error) (a : T) :
  on_field d get set v old c saved = Ok (a, saved') ->
  exists x, d v (get old) c saved = Ok (x, saved') /\ a = set old x.
Proof.
  unfold on_field, decode.dbind, decode.dret.
  destruct (d v (get old) c saved) as [[x s1]|e]; [|discriminate].
  intros [= <- <-]. eauto.
Qed.

Lemma find_field_In {T : Type} (fs : list (@decode.field T)) (key : string)
    (f : @decode.field T) :
  decode.find_field fs key = Some f -> In f fs.
Proof.
  unfold decode.find_field.
  destruct (List.find (fun f0 => String.eqb (fst f0) key) fs) as [f0|] eqn:E.
  - intros [= <-]. apply List.find_some in E. apply E.
  - intros H. apply List.find_some in H. apply H.
Qed.

(** A property of a record that every field decoder keeps is kept by the
    decoding of an object, whatever its members. *)
Lemma decode_members_keeps {T : Type} (P : T -> Prop) (name : string)
    (fs : list (@decode.field T)) :
  (forall f v old c saved a saved',
      In f fs -> P old -> snd f v old c saved = Ok (a, saved') -> P a) ->
  forall ms old c saved a saved',
    P old -> decode.decode_members name fs ms old c saved = Ok (a, saved') ->
    P a.
Proof.
  intros Hfs. induction ms as [|[rawkey v] ms IH];
    intros old c saved a saved' Hold; cbn [decode.decode_members].
  - unfold decode.dret. intros [= <- _]. exact Hold.
  - destruct (json.unquote rawkey) as [key|]; [|discriminate].
    destruct (decode.find_field fs key) as [[fname set]|] eqn:Hfind.
    + unfold decode.dbind.
      destruct (set v old (name, (snd c ++ [fname])%list) saved)
        as [[s1 saved1]|e] eqn:Hset; [|discriminate].
      apply IH. apply find_field_In in Hfind.
      exact (Hfs (fname, set) v old _ saved s1 saved1 Hfind Hold Hset).
    + apply IH. exact Hold.
Qed.

Lemma decode_struct_keeps {T : Type} (P : T -> Prop) (name ty : string)
    (fs : list (@decode.field T)) :
  (forall f v old c saved a saved',
      In f fs -> P old -> snd f v old c saved = Ok (a, saved') -> P a) ->
  forall v old c saved a saved',
    P old -> decode.decode_struct name ty fs v old c saved = Ok (a, saved') ->
    P a.
Proof.
  intros Hfs v old c saved a saved' Hold. unfold decode.decode_struct.
  destruct v; try (unfold decode.mismatch, decode.dbind, decode.saveError,
                     decode.dret; intros [= <- _]; exact Hold).
  apply (decode_members_keeps P name fs Hfs); exact Hold.
Qed.

Lemma digits_value_bounds (s : string) (acc n : Z) :
  0 <= acc -> decode.digits_value s acc = Some n -> 0 <= n.
Proof.
  revert acc. induction s as [|ch s IH]; intros acc Hacc; cbn.
  - intros [= <-]. exact Hacc.
  - destruct (isDigit ch) eqn:Hd; [|discriminate].
    apply IH. unfold isDigit, in_range in Hd.
    apply andb_true_iff in Hd. destruct Hd as [Hlo _].
    apply Z.leb_le in Hlo. change (byte_val "0") with 48 in Hlo. lia.
Qed.

Lemma decode_uint64_range (v : json.value) (old x : Z)
    (c : decode.errorContext) (saved saved' : option error) :
  0 <= old < 2 ^ 64 ->
  decode.decode_uint64 v old c saved = Ok (x, saved') ->
  0 <= x < 2 ^ 64.
Proof.
  intros Hold. unfold decode.decode_uint64.
  destruct v; try (unfold decode.mismatch, decode.dbind, decode.saveError,
                     decode.dret; intros [= <- _]; exact Hold).
  unfold decode.strconv_ParseUint64.
  destruct lit as [|ch lit];
    [unfold decode.dbind, decode.saveError, decode.dret;
     intros [= <- _]; exact Hold|].
  destruct (decode.digits_value (String ch lit) 0) as [n|] eqn:Hn;
    [|unfold decode.dbind, decode.saveError, decode.dret;
      intros [= <- _]; exact Hold].
  destruct (n <? 2 ^ 64) eqn:Hlt;
    [|unfold decode.dbind, decode.saveError, decode.dret;
      intros [= <- _]; exact Hold].
  unfold decode.dret. intros [= <- _].
  apply Z.ltb_lt in Hlt. apply digits_value_bounds in Hn; lia.
Qed.

(** The identifier of a subscription stays a [uint64] through the
    decoding of any JSON value. *)
Lemma decode_Subscription_ID_range (v : json.value) (old a : Subscription)
    (c : decode.errorContext) (saved saved' : option error) :
  0 <= Subscription_ID old < 2 ^ 64 ->
  decode_Subscription v old c saved = Ok (a, saved') ->
  0 <= Subscription_ID a < 2 ^ 64.
Proof.
  apply (decode_struct_keeps (fun s => 0 <= Subscription_ID s < 2 ^ 64)).
  intros f v0 old0 c0 s0 a0 s0' Hin Hold Hset.
  unfold Subscription_fields in Hin. cbn [In] in Hin.
  repeat (destruct Hin as [<- | Hin]); try destruct Hin;
    cbn [snd] in Hset; apply on_field_inv in Hset;
    destruct Hset as (x & Hx & ->); cbn [Subscription_ID]; try exact Hold.
  exact (decode_uint64_range _ _ _ _ _ _ Hold Hx).
Qed.

(** X12. The identifier of a subscription that [SubscribeToRepo] returns
    is a [uint64]: it lies between 0 and 2^64 - 1, whatever number the
    body of the answer holds. *)
Theorem SubscribeToRepo_ID_range
    (c : Client) (rsr : RepoSubscribeRequest) (w : http.World)
    (subs : Subscription) :
  fst (SubscribeToRepo c rsr w) = (Some subs, None) ->
  0 <= Subscription_ID subs < 2 ^ 64.
Proof.
  destruct (newRequest rsr) as [req|err] eqn:Hreq.
  - rewrite (SubscribeToRepo_sends c rsr w req Hreq). cbn [fst].
    destruct (fst (Do c (withHeaders c req))) as [res|err]; [|discriminate].
    destruct (negb (otils.StatusOK (http.StatusCode res))); [discriminate|].
    destruct (http.ioutil_ReadAll (http.RespBody res)) as [blob [err|]];
      [discriminate|].
    destruct (Unmarshal_Subscription blob zeroSubscription) as [s|err] eqn:Hdec;
      [|discriminate].
    destruct (DeepEqual_Subscription s blankSubscription); [discriminate|].
    intros [= <-]. unfold Unmarshal_Subscription, decode.Unmarshal in Hdec.
    destruct (json.checkValid blob); [discriminate|].
    destruct (json.parse blob) as [v|]; [|discriminate].
    destruct (decode_Subscription v zeroSubscription (EmptyString, []) None)
      as [[a [e|]]|e] eqn:Hd; try discriminate.
    injection Hdec as <-.
    eapply (decode_Subscription_ID_range v zeroSubscription a); [|exact Hd].
    cbn. split; [apply Z.le_refl | reflexivity].
  - rewrite (SubscribeToRepo_no_request c rsr w err Hreq). discriminate.
Qed.

(* --------------------------------------------------------------------- *)
(** *** The encoding of a configuration, read back *)

Lemma plainByte_facts (c : ascii) :
  plainByte c = true ->
  byte_eqb c "034" = false /\ byte_eqb c "\" = false
  /\ (byte_val c <? 32) = false /\ (byte_val c <? utf8.RuneSelf) = true
  /\ json.htmlSafe c = true.
Proof.
  destruct c as [[] [] [] [] [] [] [] []]; vm_compute; intros H;
    first [discriminate H | repeat split].
Qed.

Lemma plain_cons (c : ascii) (s : string) :
  plain (String c s) = true <-> plainByte c = true /\ plain s = true.
Proof. unfold plain. cbn. apply andb_true_iff. Qed.

(** The encoder copies a plain text between two quotes. *)
Lemma appendString_plain (s : string) (fuel : nat) :
  plain s = true -> (String.length s <= fuel)%nat ->
  json.appendString_from fuel s = s.
Proof.
  revert fuel. induction s as [|c s IH]; intros fuel Hp Hf;
    [destruct fuel; reflexivity|].
  apply plain_cons in Hp. destruct Hp as [Hc Hs].
  destruct fuel as [|fuel]; [cbn in Hf; lia|].
  destruct (plainByte_facts c Hc) as (_ & _ & _ & H128 & Hsafe).
  cbn [json.appendString_from]. rewrite H128, Hsafe.
  cbn in Hf. rewrite (IH fuel Hs ltac:(lia)). reflexivity.
Qed.

Lemma encodeString_plain (s rest : string) :
  plain s = true ->
  json.encodeString s +:+ rest = String "034" (s +:+ String "034" rest).
Proof.
  intros Hp. unfold json.encodeString.
  rewrite (appendString_plain s _ Hp (le_n _)).
  rewrite !append_cons, append_assoc. reflexivity.
Qed.

(** The decoder reads a plain text back as it is. *)
Lemma unquote_from_plain (s : string) (fuel : nat) :
  plain s = true -> (String.length s <= fuel)%nat ->
  json.unquote_from fuel s = Some s.
Proof.
  revert fuel. induction s as [|c s IH]; intros fuel Hp Hf;
    [destruct fuel; reflexivity|].
  apply plain_cons in Hp. destruct Hp as [Hc Hs].
  destruct fuel as [|fuel]; [cbn in Hf; lia|].
  destruct (plainByte_facts c Hc) as (Hq & Hb & H32 & H128 & _).
  cbn [json.unquote_from]. rewrite Hb, Hq, H32, H128.
  cbn in Hf. rewrite (IH fuel Hs ltac:(lia)). reflexivity.
Qed.

Lemma unquote_plain (s : string) : plain s = true -> json.unquote s = Some s.
Proof. intros Hp. apply unquote_from_plain; [exact Hp | apply le_n]. Qed.

(** One byte of a text, when the step on it is known. *)
Lemma scan_cons (s s' : json.scanner) (c : ascii) (rest : string)
    (op : json.opcode) :
  json.do_step
    (json.mkScanner (json.step s) (json.endTop s) (json.parseState s)
       (json.err s) (json.bytes s + 1)) c = (s', op) ->
  op <> json.scanError ->
  json.scan_all s (String c rest) = json.scan_all s' rest.
Proof.
  intros Hstep Hop. cbn [json.scan_all]. rewrite Hstep.
  destruct op; try reflexivity. congruence.
Qed.

(** The scanner stays inside a string literal over a plain text. *)
Lemma scan_plain (x : string) :
  plain x = true ->
  forall ps b, exists b', forall rest,
    json.scan_all (scanning json.stateInString ps b) (x +:+ rest)
    = json.scan_all (scanning json.stateInString ps b') rest.
Proof.
  induction x as [|c x IH]; intros Hp ps b.
  - exists b. reflexivity.
  - apply plain_cons in Hp. destruct Hp as [Hc Hx].
    destruct (plainByte_facts c Hc) as (Hq & Hb & H32 & _ & _).
    destruct (IH Hx ps (b + 1)) as [b' Hb'].
    exists b'. intros rest. rewrite append_cons, <- Hb'.
    apply (scan_cons _ _ _ _ json.scanContinue); [|discriminate].
    unfold scanning. cbn [json.do_step json.step json.endTop json.parseState
                            json.err json.bytes].
    rewrite Hq, Hb, H32. reflexivity.
Qed.

Lemma scan_quoted (x : string) :
  plain x = true ->
  forall f ps b, opensString f -> exists b', forall rest,
    json.scan_all (scanning f ps b) (json.encodeString x +:+ rest)
    = json.scan_all (scanning json.stateEndValue ps b') rest.
Proof.
  intros Hp f ps b Hf.
  destruct (scan_plain x Hp ps (b + 1)) as [b1 Hb1].
  exists (b1 + 1). intros rest. rewrite (encodeString_plain x rest Hp).
  rewrite (scan_cons _ (scanning json.stateInString ps (b + 1)) _ _
             json.scanBeginLiteral); [| |discriminate].
  - rewrite Hb1.
    apply (scan_cons _ _ _ _ json.scanContinue); [reflexivity | discriminate].
  - destruct Hf as [-> | [-> | [-> | ->]]]; reflexivity.
Qed.

Lemma ScanV_le (d d' : nat) (vt : string) :
  (d <= d')%nat -> ScanV d vt -> ScanV d' vt.
Proof. intros Hd H f ps b Hf Hps Hlen. apply H; [exact Hf | exact Hps | lia]. Qed.

Lemma ScanV_string (x : string) : plain x = true -> ScanV 0 (json.encodeString x).
Proof.
  intros Hp f ps b Hf _ _. apply (scan_quoted x Hp).
  unfold opensString. tauto.
Qed.

Lemma ScanV_true : ScanV 0 "true".
Proof.
  intros f ps b Hf _ _. exists (b + 1 + 1 + 1 + 1). intros rest.
  rewrite !append_cons.
  rewrite (scan_cons _ (scanning json.stateT ps (b + 1)) _ _
             json.scanBeginLiteral); [| |discriminate].
  - rewrite (scan_cons _ (scanning json.stateTr ps (b + 1 + 1)) _ _
               json.scanContinue); [|reflexivity|discriminate].
    rewrite (scan_cons _ (scanning json.stateTru ps (b + 1 + 1 + 1)) _ _
               json.scanContinue); [|reflexivity|discriminate].
    apply (scan_cons _ _ _ _ json.scanContinue); [reflexivity|discriminate].
  - destruct Hf as [-> | ->]; reflexivity.
Qed.

(** The elements of an array of plain strings, up to the closing
    bracket. *)
Lemma scan_elems (es : list string) :
  forallb plain es = true ->
  forall e f ps b,
    plain e = true ->
    f = json.stateBeginValue \/ f = json.stateBeginValueOrEmpty ->
    exists b', forall rest,
      json.scan_all (scanning f (json.parseArrayValue :: ps) b)
        (decode.strings_Join (map json.encodeString (e :: es)) "," +:+ rest)
      = json.scan_all
          (scanning json.stateEndValue (json.parseArrayValue :: ps) b') rest.
Proof.
  induction es as [|e2 es IH]; intros Hes e f ps b He Hf.
  - cbn [map decode.strings_Join]. apply (scan_quoted e He).
    unfold opensString. tauto.
  - cbn [forallb] in Hes. apply andb_true_iff in Hes. destruct Hes as [He2 Hes].
    destruct (scan_quoted e He f (json.parseArrayValue :: ps) b
                ltac:(unfold opensString; tauto)) as [b1 Hb1].
    destruct (IH Hes e2 json.stateBeginValue ps (b1 + 1) He2 ltac:(tauto))
      as [b2 Hb2].
    exists b2. intros rest.
    change (decode.strings_Join (map json.encodeString (e :: e2 :: es)) ",")
      with (json.encodeString e +:+ "," +:+
            decode.strings_Join (map json.encodeString (e2 :: es)) ",").
    rewrite !append_assoc, Hb1, append_cons.
    rewrite (scan_cons _
               (scanning json.stateBeginValue (json.parseArrayValue :: ps)
                  (b1 + 1)) _ _ json.scanArrayValue);
      [|reflexivity|discriminate].
    apply Hb2.
Qed.

Lemma ScanV_events (e : string) (es : list string) :
  forallb plain (e :: es) = true -> ScanV 1 (eventsText (e :: es)).
Proof.
  intros Hall f ps b Hf Hps Hlen.
  cbn [forallb] in Hall. apply andb_true_iff in Hall. destruct Hall as [He Hes].
  destruct (scan_elems es Hes e json.stateBeginValueOrEmpty ps (b + 1) He
              ltac:(tauto)) as [b1 Hb1].
  exists (b1 + 1). intros rest. unfold eventsText.
  rewrite !append_assoc, append_cons.
  rewrite (scan_cons _
             (scanning json.stateBeginValueOrEmpty (json.parseArrayValue :: ps)
                (b + 1)) _ _ json.scanBeginArray); [| |discriminate].
  - change (EmptyString +:+ ?x) with x. rewrite Hb1, append_cons.
    apply (scan_cons _ _ _ _ json.scanEndArray); [|discriminate].
    destruct ps as [|p ps]; [cbn in Hps; lia|]. reflexivity.
  - assert (Hpush : (Z.of_nat (length (json.parseArrayValue :: ps))
                     <=? json.maxNestingDepth) = true).
    { apply Z.leb_le. unfold json.maxNestingDepth. cbn [length]. lia. }
    destruct Hf as [-> | ->]; unfold scanning;
      cbn [json.do_step json.do_stateBeginValue json.step json.endTop
           json.parseState json.err json.bytes json.set_step json.isSpace
           json.pushParseState byte_eqb Ascii.eqb Bool.eqb orb andb];
      unfold json.pushParseState, json.set_step;
      cbn [json.step json.endTop json.parseState json.err json.bytes];
      rewrite Hpush; reflexivity.
Qed.

Lemma encodeObject_parts (ms : list part) :
  encodeObject (map partText ms)
  = "{" +:+ decode.strings_Join (map memberText ms) "," +:+ "}".
Proof.
  unfold encodeObject. f_equal. f_equal. f_equal.
  induction ms as [|m ms IH]; [reflexivity|].
  cbn [map omap]. unfold partText at 1. cbn. f_equal. exact IH.
Qed.

(** The members of an object, up to its closing brace. *)
Lemma scan_members (d : nat) (ms : list part) :
  forall m f ps b,
    Forall (goodPart d) (m :: ms) ->
    f = json.stateBeginString \/ f = json.stateBeginStringOrEmpty ->
    Z.of_nat (length ps) + 1 + Z.of_nat d < 10000 ->
    exists b', forall rest,
      json.scan_all (scanning f (json.parseObjectKey :: ps) b)
        (decode.strings_Join (map memberText (m :: ms)) "," +:+ rest)
      = json.scan_all
          (scanning json.stateEndValue (json.parseObjectValue :: ps) b') rest.
Proof.
  induction ms as [|m2 ms IH]; intros m f ps b Hall Hf Hlen;
    inversion Hall as [|? ? Hm Hms]; subst;
    destruct m as [[k vt] v]; destruct Hm as (Hk & Hscan & _);
    cbn [fst snd] in Hk, Hscan;
    destruct (scan_quoted k Hk f (json.parseObjectKey :: ps) b
                ltac:(unfold opensString; tauto)) as [b1 Hb1];
    destruct (Hscan json.stateBeginValue (json.parseObjectValue :: ps) (b1 + 1)
                ltac:(tauto) ltac:(cbn; lia) ltac:(cbn [length]; lia))
      as [b2 Hb2].
  - exists b2. intros rest. cbn [map decode.strings_Join].
    unfold memberText. cbn [fst snd].
    rewrite !append_assoc, Hb1, append_cons.
    rewrite (scan_cons _
               (scanning json.stateBeginValue (json.parseObjectValue :: ps)
                  (b1 + 1)) _ _ json.scanObjectKey);
      [|reflexivity|discriminate].
    change (EmptyString +:+ ?x) with x. apply Hb2.
  - destruct (IH m2 json.stateBeginString ps (b2 + 1) Hms ltac:(tauto) Hlen)
      as [b3 Hb3].
    exists b3. intros rest.
    change (decode.strings_Join (map memberText ((k, vt, v) :: m2 :: ms)) ",")
      with (memberText (k, vt, v) +:+ "," +:+
            decode.strings_Join (map memberText (m2 :: ms)) ",").
    unfold memberText at 1. cbn [fst snd].
    rewrite !append_assoc, Hb1, append_cons.
    rewrite (scan_cons _
               (scanning json.stateBeginValue (json.parseObjectValue :: ps)
                  (b1 + 1)) _ _ json.scanObjectKey);
      [|reflexivity|discriminate].
    change (EmptyString +:+ ?x) with x. rewrite Hb2, append_cons.
    rewrite (scan_cons _
               (scanning json.stateBeginString (json.parseObjectKey :: ps)
                  (b2 + 1)) _ _ json.scanObjectValue);
      [|reflexivity|discriminate].
    change (EmptyString +:+ ?x) with x. apply Hb3.
Qed.

Lemma push_object (f : json.stepfn) (ps : list json.pstate) (b : Z) :
  f = json.stateBeginValue \/ f = json.stateBeginValueOrEmpty ->
  Z.of_nat (length ps) + 1 <= 10000 ->
  json.do_step (scanning f ps b) "{"
  = (scanning json.stateBeginStringOrEmpty (json.parseObjectKey :: ps) b,
     json.scanBeginObject).
Proof.
  intros Hf Hlen.
  assert (Hpush : (Z.of_nat (length (json.parseObjectKey :: ps))
                   <=? json.maxNestingDepth) = true).
  { apply Z.leb_le. unfold json.maxNestingDepth. cbn [length]. lia. }
  destruct Hf as [-> | ->]; unfold scanning;
    cbn [json.do_step json.do_stateBeginValue json.step json.endTop
         json.parseState json.err json.bytes json.isSpace
         byte_eqb Ascii.eqb Bool.eqb orb andb];
    unfold json.pushParseState, json.set_step;
    cbn [json.step json.endTop json.parseState json.err json.bytes];
    rewrite Hpush; reflexivity.
Qed.

(** An object of good members is scanned as a value. *)
Lemma ScanV_object (d : nat) (ms : list part) :
  Forall (goodPart d) ms -> ScanV (S d) (encodeObject (map partText ms)).
Proof.
  intros Hall f ps b Hf Hps Hlen. rewrite encodeObject_parts.
  destruct ps as [|p ps]; [cbn in Hps; lia|]. cbn [length] in Hlen.
  destruct ms as [|m ms].
  - exists (b + 1 + 1). intros rest. cbn [map decode.strings_Join].
    rewrite !append_cons.
    rewrite (scan_cons (scanning f (p :: ps) b) _ _ _ _
               (push_object f (p :: ps) (b + 1) Hf ltac:(cbn [length]; lia)));
      [|discriminate].
    apply (scan_cons _ _ _ _ json.scanEndObject); [reflexivity|discriminate].
  - destruct (scan_members d ms m json.stateBeginStringOrEmpty (p :: ps) (b + 1)
                Hall ltac:(tauto) ltac:(cbn [length]; lia)) as [b1 Hb1].
    exists (b1 + 1). intros rest.
    rewrite !append_assoc, append_cons.
    rewrite (scan_cons (scanning f (p :: ps) b) _ _ _ _
               (push_object f (p :: ps) (b + 1) Hf ltac:(cbn [length]; lia)));
      [|discriminate].
    change (EmptyString +:+ ?x) with x. rewrite Hb1, append_cons.
    apply (scan_cons _ _ _ _ json.scanEndObject); [reflexivity|discriminate].
Qed.

(** An object of good members is a valid JSON text. *)
Lemma checkValid_object (d : nat) (ms : list part) :
  Z.of_nat d < 9000 -> Forall (goodPart d) ms ->
  json.checkValid (encodeObject (map partText ms)) = None.
Proof.
  intros Hd Hall. rewrite encodeObject_parts. unfold json.checkValid.
  change json.reset with (scanning json.stateBeginValue [] 0).
  destruct ms as [|m ms]; [reflexivity|].
  destruct (scan_members d ms m json.stateBeginStringOrEmpty [] (0 + 1)
              Hall ltac:(tauto) ltac:(cbn [length]; lia)) as [b1 Hb1].
  rewrite append_cons.
  rewrite (scan_cons (scanning json.stateBeginValue [] 0) _ _ _ _
             (push_object json.stateBeginValue [] (0 + 1)
                ltac:(tauto) ltac:(cbn [length]; lia)));
    [|discriminate].
  change (EmptyString +:+ ?x) with x. rewrite Hb1. reflexivity.
Qed.

(** The parser reads a plain text up to the quote that closes it. *)
Lemma scanString_plain (x rest : string) :
  plain x = true ->
  json.scanString (x +:+ String "034" rest) = Some (x, rest).
Proof.
  induction x as [|c x IH]; intros Hp; [reflexivity|].
  apply plain_cons in Hp. destruct Hp as [Hc Hx].
  destruct (plainByte_facts c Hc) as (Hq & Hb & _).
  rewrite append_cons. cbn [json.scanString]. rewrite Hq, Hb, (IH Hx).
  reflexivity.
Qed.

Lemma length_encodeString (x : string) :
  (2 <= String.length (json.encodeString x))%nat.
Proof.
  unfold json.encodeString. rewrite append_cons. cbn [String.length].
  rewrite length_append. cbn. lia.
Qed.

Lemma ParseV_string (x : string) :
  plain x = true -> ParseV (json.encodeString x) (json.Str x).
Proof.
  intros Hp fuel rest Hf. rewrite (encodeString_plain x rest Hp).
  destruct fuel as [|fuel]; [pose proof (length_encodeString x); lia|].
  cbn [json.parseValue json.skipSpace json.isSpace byte_eqb Ascii.eqb
       Bool.eqb orb].
  rewrite (scanString_plain x rest Hp). reflexivity.
Qed.

Lemma substring_all (s : string) : String.substring 0 (String.length s) s = s.
Proof. induction s as [|c s IH]; cbn; [reflexivity | rewrite IH; reflexivity]. Qed.

Lemma dropPrefix_app (p r : string) : json.dropPrefix p (p +:+ r) = Some r.
Proof.
  unfold json.dropPrefix.
  assert (Hpre : String.prefix p (p +:+ r) = true).
  { induction p as [|c p IH]; [destruct r; reflexivity|].
    rewrite append_cons. cbn. destruct (ascii_dec c c); [exact IH|congruence]. }
  rewrite Hpre. f_equal. rewrite length_append.
  replace (String.length p + String.length r - String.length p)%nat
    with (String.length r) by lia.
  induction p as [|c p IH]; [apply substring_all|].
  rewrite append_cons. cbn [String.length String.substring]. apply IH.
  clear IH. revert Hpre. rewrite append_cons. cbn.
  destruct (ascii_dec c c); [tauto|congruence].
Qed.

Lemma ParseV_true : ParseV "true" (json.Bool true).
Proof.
  intros fuel rest Hf. destruct fuel as [|fuel]; [cbn in Hf; lia|].
  change ("true" +:+ rest) with (String "t" ("rue" +:+ rest)).
  cbn [json.parseValue json.skipSpace json.isSpace byte_eqb Ascii.eqb
       Bool.eqb orb].
  rewrite dropPrefix_app. reflexivity.
Qed.

(** The elements of an array of plain strings, up to the closing
    bracket. *)
Lemma parse_elems (es : list string) :
  forallb plain es = true ->
  forall e fuel rest,
    plain e = true ->
    (String.length (decode.strings_Join (map json.encodeString (e :: es)) ",")
     + 1 <= fuel)%nat ->
    json.parseElements fuel
      (decode.strings_Join (map json.encodeString (e :: es)) "," +:+ "]"
       +:+ rest)
    = Some (map json.Str (e :: es), rest).
Proof.
  induction es as [|e2 es IH]; intros Hes e fuel rest He Hf.
  - cbn [map decode.strings_Join] in *.
    destruct fuel as [|fuel]; [lia|]. cbn [json.parseElements].
    rewrite (ParseV_string e He fuel _ ltac:(lia)). reflexivity.
  - cbn [forallb] in Hes. apply andb_true_iff in Hes. destruct Hes as [He2 Hes].
    change (decode.strings_Join (map json.encodeString (e :: e2 :: es)) ",")
      with (json.encodeString e +:+ "," +:+
            decode.strings_Join (map json.encodeString (e2 :: es)) ",") in *.
    rewrite !length_append in Hf. cbn [String.length] in Hf.
    destruct fuel as [|fuel]; [lia|]. cbn [json.parseElements].
    rewrite !append_assoc.
    rewrite (ParseV_string e He fuel _ ltac:(lia)).
    rewrite append_cons. cbn [json.skipSpace json.isSpace byte_eqb Ascii.eqb
                               Bool.eqb orb].
    change (EmptyString +:+ ?x) with x.
    rewrite (IH Hes e2 fuel rest He2 ltac:(lia)). reflexivity.
Qed.

Lemma ParseV_events (e : string) (es : list string) :
  forallb plain (e :: es) = true ->
  ParseV (eventsText (e :: es)) (json.Array (map json.Str (e :: es))).
Proof.
  intros Hall fuel rest Hf.
  cbn [forallb] in Hall. apply andb_true_iff in Hall. destruct Hall as [He Hes].
  change (eventsText (e :: es))
    with (String "["
            (decode.strings_Join (map json.encodeString (e :: es)) ","
             +:+ "]")) in *.
  cbn [String.length] in Hf. rewrite length_append in Hf.
  cbn [String.length] in Hf.
  destruct fuel as [|fuel]; [lia|].
  rewrite append_cons, append_assoc.
  assert (Hhead : exists t,
             decode.strings_Join (map json.encodeString (e :: es)) ","
             = String "034" t).
  { destruct es; cbn [map decode.strings_Join]; unfold json.encodeString;
      rewrite ?append_cons; eauto. }
  destruct Hhead as [t Ht].
  cbn [json.parseValue json.skipSpace json.isSpace byte_eqb Ascii.eqb
       Bool.eqb orb].
  rewrite Ht, append_cons.
  cbn [json.skipSpace json.isSpace byte_eqb Ascii.eqb Bool.eqb orb].
  rewrite <- append_cons, <- Ht.
  rewrite (parse_elems es Hes e fuel rest He ltac:(lia)). reflexivity.
Qed.

(** The length of a text written with [String] and [+:+]. *)
Ltac text_length H :=
  repeat (progress (rewrite ?append_cons, ?length_append in H;
                    cbn [String.length] in H)).

Lemma memberText_shape (m : part) :
  plain (fst (fst m)) = true ->
  memberText m
  = String "034" (fst (fst m) +:+ String "034" (String ":" (snd (fst m)))).
Proof.
  intros Hk. unfold memberText.
  rewrite (encodeString_plain _ _ Hk). reflexivity.
Qed.

(** The members of an object, up to its closing brace. *)
Lemma parse_members (d : nat) (ms : list part) :
  forall m fuel rest,
    Forall (goodPart d) (m :: ms) ->
    (String.length (decode.strings_Join (map memberText (m :: ms)) ",") + 1
     <= fuel)%nat ->
    json.parseMembers fuel
      (decode.strings_Join (map memberText (m :: ms)) "," +:+ "}" +:+ rest)
    = Some (map partTree (m :: ms), rest).
Proof.
  induction ms as [|m2 ms IH]; intros m fuel rest Hall Hf;
    inversion Hall as [|? ? Hm Hms]; subst;
    destruct Hm as (Hk & _ & Hparse).
  - cbn [map decode.strings_Join] in *.
    rewrite (memberText_shape m Hk) in *. text_length Hf.
    destruct fuel as [|fuel]; [lia|].
    rewrite append_cons, append_assoc, !append_cons.
    cbn [json.parseMembers json.skipSpace json.isSpace byte_eqb Ascii.eqb
         Bool.eqb orb].
    rewrite (scanString_plain _ _ Hk).
    cbn [json.skipSpace json.isSpace byte_eqb Ascii.eqb Bool.eqb orb].
    rewrite (Hparse fuel _ ltac:(lia)). reflexivity.
  - change (decode.strings_Join (map memberText (m :: m2 :: ms)) ",")
      with (memberText m +:+ "," +:+
            decode.strings_Join (map memberText (m2 :: ms)) ",") in *.
    rewrite (memberText_shape m Hk) in *. text_length Hf.
    destruct fuel as [|fuel]; [lia|].
    rewrite !append_assoc, !append_cons, !append_assoc, !append_cons.
    cbn [json.parseMembers json.skipSpace json.isSpace byte_eqb Ascii.eqb
         Bool.eqb orb].
    rewrite (scanString_plain _ _ Hk).
    cbn [json.skipSpace json.isSpace byte_eqb Ascii.eqb Bool.eqb orb].
    rewrite (Hparse fuel _ ltac:(lia)).
    cbn [json.skipSpace json.isSpace byte_eqb Ascii.eqb Bool.eqb orb].
    change (json.parseMembers fuel _)
      with (json.parseMembers fuel
              (decode.strings_Join (map memberText (m2 :: ms)) "," +:+ "}"
               +:+ rest)).
    rewrite (IH m2 fuel rest Hms ltac:(lia)). reflexivity.
Qed.

(** An object of good members is parsed as the object of their
    values. *)
Lemma ParseV_object (d : nat) (ms : list part) :
  Forall (goodPart d) ms ->
  ParseV (encodeObject (map partText ms)) (json.Object (map partTree ms)).
Proof.
  intros Hall fuel rest Hf. rewrite encodeObject_parts in *.
  destruct ms as [|m ms].
  - destruct fuel as [|fuel]; [text_length Hf; lia|]. reflexivity.
  - change ("{" +:+ ?j +:+ "}") with (String "{" (j +:+ "}")) in *.
    text_length Hf.
    destruct fuel as [|fuel]; [lia|].
    pose proof (parse_members d ms m fuel rest Hall ltac:(lia)) as Hms.
    assert (Hhead : exists t,
               decode.strings_Join (map memberText (m :: ms)) ","
               = String "034" t).
    { inversion Hall as [|? ? Hm _]; subst. destruct Hm as (Hk & _).
      destruct ms; cbn [map decode.strings_Join];
        rewrite (memberText_shape m Hk), ?append_cons; eauto. }
    destruct Hhead as [t Ht].
    rewrite append_cons, append_assoc.
    cbn [json.parseValue json.skipSpace json.isSpace byte_eqb Ascii.eqb
         Bool.eqb orb].
    rewrite Ht, append_cons in *.
    cbn [json.skipSpace json.isSpace byte_eqb Ascii.eqb Bool.eqb orb].
    rewrite Hms. reflexivity.
Qed.

Lemma parse_object (d : nat) (ms : list part) :
  Forall (goodPart d) ms ->
  json.parse (encodeObject (map partText ms))
  = Some (json.Object (map partTree ms)).
Proof.
  intros Hall. unfold json.parse.
  rewrite <- (append_nil_r (encodeObject (map partText ms))) at 2.
  rewrite (ParseV_object d ms Hall _ EmptyString (Nat.le_succ_diag_r _)).
  reflexivity.
Qed.

(* The decoding of the value that the text denotes. *)

Lemma decode_string_plain (ty x old : string) (c : decode.errorContext)
    (saved : option error) :
  plain x = true ->
  decode.decode_string ty (json.Str x) old c saved = Ok (x, saved).
Proof.
  intros Hp. unfold decode.decode_string. rewrite (unquote_plain x Hp).
  reflexivity.
Qed.

Lemma decode_elems_plain (ty : string) (es old : list string)
    (c : decode.errorContext) (saved : option error) :
  forallb plain es = true ->
  decode.decode_elems EmptyString (decode.decode_string ty)
    (map json.Str es) old c saved
  = Ok (es, saved).
Proof.
  revert old. induction es as [|e es IH]; intros old Hes; [reflexivity|].
  cbn [forallb] in Hes. apply andb_true_iff in Hes. destruct Hes as [He Hes].
  cbn [map decode.decode_elems]. unfold decode.dbind.
  rewrite (decode_string_plain ty e _ c saved He), (IH (tl old) Hes).
  reflexivity.
Qed.

(** One member of an object whose key names a field. *)
Lemma decode_members_step {T : Type} (name : string)
    (fs : list (@decode.field T)) (k key fname : string)
    (set : json.value -> T -> decode.errorContext -> decode.dec T)
    (v : json.value) (rest : list (string * json.value)) (old s1 : T)
    (c : decode.errorContext) (saved saved1 : option error) :
  json.unquote k = Some key ->
  decode.find_field fs key = Some (fname, set) ->
  set v old (name, (snd c ++ [fname])%list) saved = Ok (s1, saved1) ->
  decode.decode_members name fs ((k, v) :: rest) old c saved
  = decode.decode_members name fs rest s1 c saved1.
Proof.
  intros Hk Hfind Hset. cbn [decode.decode_members].
  rewrite Hk, Hfind. unfold decode.dbind. rewrite Hset. reflexivity.
Qed.

Lemma omap_id_cons {A : Type} (o : option A) (l : list (option A)) :
  omap id (o :: l) = (omap id [o] ++ omap id l)%list.
Proof. destruct o; reflexivity. Qed.

(** The delivery configuration comes back as it was sent. *)
Lemma decode_PayloadConfig_parts (p : PayloadConfig)
    (c : decode.errorContext) (saved : option error) :
  plain (PayloadConfig_URL p) = true ->
  plain (PayloadConfig_ContentType p) = true ->
  decode_PayloadConfig_ptr
    (json.Object (map partTree (parts_PayloadConfig p))) None c saved
  = Ok (Some p, saved).
Proof.
  intros Hu Hct. destruct p as [u ct]. cbn [PayloadConfig_URL
    PayloadConfig_ContentType] in *.
  unfold decode_PayloadConfig_ptr, decode.decode_ptr, decode.dbind,
    decode_PayloadConfig, decode.decode_struct, parts_PayloadConfig,
    stringPart.
  cbn [default from_option id].
  assert (H1 : forall tl,
    decode.decode_members "PayloadConfig" PayloadConfig_fields
      (map partTree
         (omap id [if String.eqb u EmptyString then None
                   else Some ("url", json.encodeString u, json.Str u)])
       ++ tl)%list
      (mkPayloadConfig EmptyString EmptyString) c saved
    = decode.decode_members "PayloadConfig" PayloadConfig_fields tl
        (mkPayloadConfig u EmptyString) c saved).
  { intros tl. destruct u as [|a u]; [reflexivity|].
    cbn [String.eqb omap id map app partTree fst snd mbind option_bind].
    eapply decode_members_step; [reflexivity | reflexivity |].
    unfold on_field, decode.dbind. cbn [PayloadConfig_URL].
    rewrite (decode_string_plain _ _ _ _ _ Hu). reflexivity. }
  assert (H2 : forall tl,
    decode.decode_members "PayloadConfig" PayloadConfig_fields
      (map partTree
         (omap id [if String.eqb ct EmptyString then None
                   else Some ("content_type", json.encodeString ct,
                              json.Str ct)])
       ++ tl)%list
      (mkPayloadConfig u EmptyString) c saved
    = decode.decode_members "PayloadConfig" PayloadConfig_fields tl
        (mkPayloadConfig u ct) c saved).
  { intros tl. destruct ct as [|a ct]; [reflexivity|].
    cbn [String.eqb omap id map app partTree fst snd mbind option_bind].
    eapply decode_members_step; [reflexivity | reflexivity |].
    unfold on_field, decode.dbind. cbn [PayloadConfig_ContentType].
    rewrite (decode_string_plain _ _ _ _ _ Hct). reflexivity. }
  rewrite omap_id_cons, map_app, H1.
  rewrite <- (app_nil_r (map partTree (omap id [_]))), H2.
  reflexivity.
Qed.

Lemma encode_PayloadConfig_parts (p : PayloadConfig) :
  encode_PayloadConfig p = encodeObject (map partText (parts_PayloadConfig p)).
Proof. destruct p as [[|a u] [|b ct]]; reflexivity. Qed.

Lemma encode_SubscribeRequest_parts (s : SubscribeRequest) :
  encode_SubscribeRequest s
  = encodeObject (map partText (parts_SubscribeRequest s)).
Proof.
  destruct s as [[|a n] [] [[|e es]|] [p|]]; reflexivity.
Qed.

Lemma good_stringPart (d : nat) (key x : string) (l : list part) :
  plain key = true -> plain x = true ->
  Forall (goodPart d) l ->
  Forall (goodPart d) (omap id [stringPart key x] ++ l)%list.
Proof.
  intros Hk Hx Hl. unfold stringPart.
  destruct (String.eqb x EmptyString); [exact Hl|].
  constructor; [|exact Hl]. split; [exact Hk|]. split.
  - apply (ScanV_le 0); [lia | apply ScanV_string, Hx].
  - apply ParseV_string, Hx.
Qed.

Lemma good_parts_PayloadConfig (p : PayloadConfig) :
  plain (PayloadConfig_URL p) = true ->
  plain (PayloadConfig_ContentType p) = true ->
  Forall (goodPart 0) (parts_PayloadConfig p).
Proof.
  intros Hu Hct. unfold parts_PayloadConfig.
  rewrite omap_id_cons. apply good_stringPart; [reflexivity | exact Hu |].
  rewrite <- (app_nil_r (omap id [_])).
  apply good_stringPart; [reflexivity | exact Hct | constructor].
Qed.

Lemma plainConfig_spec (s : SubscribeRequest) :
  plainConfig s = true ->
  plain (SubscribeRequest_Name s) = true
  /\ (forall es, SubscribeRequest_Events s = Some es ->
      forallb plain es = true)
  /\ (forall p, SubscribeRequest_Config s = Some p ->
      plain (PayloadConfig_URL p) = true
      /\ plain (PayloadConfig_ContentType p) = true).
Proof.
  unfold plainConfig. rewrite !andb_true_iff. intros [[Hn He] Hc].
  split; [exact Hn|]. split.
  - intros es Hes. rewrite Hes in He. exact He.
  - intros p Hp. rewrite Hp in Hc. apply andb_true_iff in Hc. exact Hc.
Qed.

Lemma good_parts_SubscribeRequest (s : SubscribeRequest) :
  plainConfig s = true -> Forall (goodPart 1) (parts_SubscribeRequest s).
Proof.
  intros Hs. destruct (plainConfig_spec s Hs) as (Hn & He & Hc).
  unfold parts_SubscribeRequest.
  rewrite omap_id_cons. apply good_stringPart; [reflexivity | exact Hn |].
  destruct (SubscribeRequest_Active s);
    [constructor;
     [split; [reflexivity|]; split;
      [apply (ScanV_le 0); [lia | exact ScanV_true] | exact ParseV_true]|]|];
    (destruct (SubscribeRequest_Events s) as [[|e es]|] eqn:Hev;
     [| constructor;
        [split; [reflexivity|]; split;
         [apply ScanV_events | apply ParseV_events];
         exact (He _ eq_refl)|] |]);
    (destruct (SubscribeRequest_Config s) as [p|] eqn:Hcfg;
     [|constructor]);
    destruct (Hc p eq_refl) as [Hu Hct];
    (constructor; [|constructor]);
    (split; [reflexivity|]);
    rewrite encode_PayloadConfig_parts;
    (split; [apply ScanV_object | apply (ParseV_object 0)]);
    apply good_parts_PayloadConfig; assumption.
Qed.

(** The members of the encoding set the four fields that a configuration
    and a subscription share. *)
Lemma decode_Subscription_parts (s : SubscribeRequest)
    (c : decode.errorContext) :
  plainConfig s = true ->
  decode_Subscription
    (json.Object (map partTree (parts_SubscribeRequest s)))
    zeroSubscription c None
  = Ok (echoed s, None).
Proof.
  intros Hs. destruct (plainConfig_spec s Hs) as (Hn & He & Hc).
  clear Hs. destruct s as [n a ev cfg].
  cbn [SubscribeRequest_Name SubscribeRequest_Active SubscribeRequest_Events
       SubscribeRequest_Config] in *.
  unfold decode_Subscription, decode.decode_struct, parts_SubscribeRequest,
    echoed, zeroSubscription.
  cbn [SubscribeRequest_Name SubscribeRequest_Active SubscribeRequest_Events
       SubscribeRequest_Config].
  set (S1 := mkSubscription 0 EmptyString EmptyString EmptyString n
               None false None None None).
  set (S2 := mkSubscription 0 EmptyString EmptyString EmptyString n
               None a None None None).
  set (ev' := match ev with Some (e :: es) => Some (e :: es) | _ => None end).
  set (S3 := mkSubscription 0 EmptyString EmptyString EmptyString n
               ev' a None None None).
  assert (H1 : forall tl,
    decode.decode_members "Subscription" Subscription_fields
      (map partTree (omap id [stringPart "name" n]) ++ tl)%list
      (mkSubscription 0 EmptyString EmptyString EmptyString EmptyString
         None false None None None) c None
    = decode.decode_members "Subscription" Subscription_fields tl S1 c None).
  { intros tl. unfold stringPart. destruct n as [|x n]; [reflexivity|].
    cbn [String.eqb omap id map app partTree fst snd mbind option_bind].
    eapply decode_members_step; [reflexivity | reflexivity |].
    unfold on_field, decode.dbind. cbn [Subscription_Name].
    rewrite (decode_string_plain _ _ _ _ _ Hn). reflexivity. }
  assert (H2 : forall tl,
    decode.decode_members "Subscription" Subscription_fields
      (map partTree
         (omap id [if a then Some ("active", "true", json.Bool true)
                   else None]) ++ tl)%list S1 c None
    = decode.decode_members "Subscription" Subscription_fields tl S2 c None).
  { intros tl. unfold S1, S2. destruct a; [|reflexivity].
    cbn [omap id map app partTree fst snd mbind option_bind].
    eapply decode_members_step; [reflexivity | reflexivity |]. reflexivity. }
  assert (H3 : forall tl,
    decode.decode_members "Subscription" Subscription_fields
      (map partTree
         (omap id [match ev with
                   | Some (e :: es) =>
                       Some ("events", eventsText (e :: es),
                             json.Array (map json.Str (e :: es)))
                   | _ => None
                   end]) ++ tl)%list S2 c None
    = decode.decode_members "Subscription" Subscription_fields tl S3 c None).
  { intros tl. unfold S2, S3, ev'. destruct ev as [[|e es]|];
      [reflexivity| |reflexivity].
    cbn [omap id map app partTree fst snd mbind option_bind].
    eapply decode_members_step; [reflexivity | reflexivity |].
    unfold on_field, decode.decode_slice.
    cbn [fst snd Subscription_Events default from_option id].
    unfold decode.dbind.
    rewrite (decode_elems_plain _ _ _ _ _ (He _ eq_refl)). reflexivity. }
  assert (H4 : forall tl,
    decode.decode_members "Subscription" Subscription_fields
      (map partTree
         (omap id [match cfg with
                   | Some p =>
                       Some ("config", encode_PayloadConfig p,
                             json.Object (map partTree (parts_PayloadConfig p)))
                   | None => None
                   end]) ++ tl)%list S3 c None
    = decode.decode_members "Subscription" Subscription_fields tl
        (mkSubscription 0 EmptyString EmptyString EmptyString n
           ev' a cfg None None) c None).
  { intros tl. unfold S3. destruct cfg as [p|]; [|reflexivity].
    cbn [omap id map app partTree fst snd mbind option_bind].
    eapply decode_members_step; [reflexivity | reflexivity |].
    unfold on_field, decode.dbind. cbn [Subscription_Config].
    destruct (Hc p eq_refl) as [Hu Hct].
    rewrite (decode_PayloadConfig_parts p _ _ Hu Hct). reflexivity. }
  rewrite omap_id_cons, map_app, H1.
  rewrite omap_id_cons, map_app, H2.
  rewrite omap_id_cons, map_app, H3.
  rewrite <- (app_nil_r (map partTree (omap id [_]))), H4.
  reflexivity.
Qed.

(** The encoding of a plain configuration is valid JSON and decodes to
    what [echoed] says. *)
Lemma Unmarshal_encode (s : SubscribeRequest) :
  plainConfig s = true ->
  Unmarshal_Subscription (encode_SubscribeRequest s) zeroSubscription
  = Ok (echoed s).
Proof.
  intros Hs. pose proof (good_parts_SubscribeRequest s Hs) as Hgood.
  unfold Unmarshal_Subscription, decode.Unmarshal.
  rewrite encode_SubscribeRequest_parts.
  rewrite (checkValid_object 1 _ ltac:(lia) Hgood).
  rewrite (parse_object 1 _ Hgood).
  rewrite (decode_Subscription_parts s _ Hs). reflexivity.
Qed.

(** X13. Encoding a subscription request and decoding the text as a
    subscription gives back the name, the active flag, the events and the
    delivery configuration of the request, with every other field zero;
    a list of events that is empty comes back as a nil slice. This holds
    for the configurations whose texts are made of plain bytes. *)
Theorem Unmarshal_Marshal_echoes (s : SubscribeRequest) :
  plainConfig s = true ->
  exists blob,
    Marshal_SubscribeRequest (Some s) = Ok blob
    /\ Unmarshal_Subscription blob zeroSubscription = Ok (echoed s).
Proof.
  intros Hs. exists (encode_SubscribeRequest s). split; [reflexivity|].
  apply Unmarshal_encode, Hs.
Qed.

(** X14. Against a server that answers [201 Created] with the body of
    the request, a call with a plain configuration and well-formed names
    returns the subscription that echoes the configuration; when the
    configuration is empty throughout, so that the body is [{}], the call
    fails with [errBlankSubscription]. *)
Theorem SubscribeToRepo_echo
    (k o r : string) (s : SubscribeRequest) (w : http.World) :
  isName o = true -> isName r = true -> plainConfig s = true ->
  (echoed s = zeroSubscription ->
   fst (SubscribeToRepo (mkClient (Some echoTransport) k)
          (mkRepoSubscribeRequest o r (Some s)) w)
   = (None, Some errBlankSubscription))
  /\ (echoed s <> zeroSubscription ->
      fst (SubscribeToRepo (mkClient (Some echoTransport) k)
             (mkRepoSubscribeRequest o r (Some s)) w)
      = (Some (echoed s), None)).
Proof.
  intros Ho Hr Hs.
  set (c := mkClient (Some echoTransport) k).
  set (rsr := mkRepoSubscribeRequest o r (Some s)).
  pose proof (newRequest_wellformed o r (Some s) Ho Hr) as Hreq.
  fold rsr in Hreq.
  match type of Hreq with _ = Ok ?q => set (req := q) in * end.
  assert (Hrt : transport c (withHeaders c req)
                = Ok (http.mkResponse "201 Created" 201 ∅
                        (http.Body (withHeaders c req)))) by reflexivity.
  rewrite (SubscribeToRepo_answered c rsr w req _ Hreq Hrt eq_refl).
  cbn [http.RespBody].
  destruct (withHeaders_frame c req) as (_ & _ & Hbody). rewrite Hbody.
  change (http.ioutil_ReadAll (http.Body req))
    with (encode_SubscribeRequest s, @None error).
  cbv iota beta. rewrite (Unmarshal_encode s Hs).
  destruct (DeepEqual_Subscription (echoed s) blankSubscription) eqn:Hblank.
  - apply DeepEqual_blank in Hblank.
    split; [reflexivity | intros Hne; exfalso; apply Hne; exact Hblank].
  - split; [|reflexivity]. intros Hz. rewrite Hz in Hblank.
    rewrite (proj2 (DeepEqual_blank zeroSubscription) eq_refl) in Hblank.
    discriminate.
Qed.
End gcla.

(* ===================================================================== *)
(** ** The properties on the data of [Sample] *)
(* ===================================================================== *)

Arguments mkSubscription {Time}.

(** The example of the package against a transport that answers
    [201 Created] with the hook as GitHub describes it. *)
Lemma SubscribeToRepo_returns_decoded_witness :
  fst (SubscribeToRepo Sample.Time Sample.Time_UnmarshalJSON
         Sample.Time_DeepEqual Sample.DefaultTransport Sample.follow
         (Sample.client Sample.created) Sample.rsr Sample.world0)
  = (Some (mkSubscription 12345678
             "https://api.github.com/repos/orijtech/gcla/hooks/12345678"
             "https://api.github.com/repos/orijtech/gcla/hooks/12345678/test"
             "https://api.github.com/repos/orijtech/gcla/hooks/12345678/pings"
             "web" (Some ["push"; "pull_request"]) true
             (Some (mkPayloadConfig "https://hooks.orijtech/gcla-test" "json"))
             (Some "2019-06-03T00:57:16Z") (Some "2019-06-03T00:57:16Z")),
     None).
Proof.
  eapply (SubscribeToRepo_returns_decoded Sample.Time Sample.Time_UnmarshalJSON
            Sample.Time_DeepEqual Sample.DefaultTransport Sample.follow).
  - vm_compute. reflexivity.
  - vm_compute. reflexivity.
  - vm_compute. reflexivity.
  - vm_compute. reflexivity.
  - vm_compute. reflexivity.
  - left. simpl. lia.
Defined.

(** The same call against a transport that answers [201 Created] with
    the body [{}]. *)
Lemma SubscribeToRepo_rejects_blank_witness :
  fst (SubscribeToRepo Sample.Time Sample.Time_UnmarshalJSON
         Sample.Time_DeepEqual Sample.DefaultTransport Sample.follow
         (Sample.client Sample.createdEmpty) Sample.rsr Sample.world0)
  = (None, Some errBlankSubscription)
  /\ Error errBlankSubscription = "no subscription could be parsed".
Proof.
  eapply (SubscribeToRepo_rejects_blank Sample.Time Sample.Time_UnmarshalJSON
            Sample.Time_DeepEqual Sample.DefaultTransport Sample.follow).
  - vm_compute. reflexivity.
  - vm_compute. reflexivity.
  - vm_compute. reflexivity.
  - vm_compute. reflexivity.
  - left. reflexivity.
Defined.

(** The same call against a transport that answers [404 Not Found]. *)
Lemma SubscribeToRepo_fails_on_status_witness :
  exists err,
    fst (SubscribeToRepo Sample.Time Sample.Time_UnmarshalJSON
           Sample.Time_DeepEqual Sample.DefaultTransport Sample.follow
           (Sample.client Sample.notFound) Sample.rsr Sample.world0)
    = (None, Some err)
    /\ Error err = http.Status Sample.notFoundResponse
    /\ strings_Contains (Error err) (http.Status Sample.notFoundResponse) = true.
Proof.
  eapply (SubscribeToRepo_fails_on_status Sample.Time Sample.Time_UnmarshalJSON
            Sample.Time_DeepEqual Sample.DefaultTransport Sample.follow).
  - vm_compute. reflexivity.
  - vm_compute. reflexivity.
  - vm_compute. reflexivity.
Defined.

(** C3, as stated, fails for a response that [Do] follows: the
    transport answers the request with [302 Found], a status outside the
    2xx range, [Do] goes on to the new place with a second request, and
    the call returns the subscription that the answer to that one
    holds. *)
Lemma SubscribeToRepo_fails_on_status_counterexample :
  exists req : http.Request,
    newRequest Sample.rsr = Ok req
    /\ transport Sample.DefaultTransport (Sample.client Sample.moved)
         (withHeaders (Sample.client Sample.moved) req)
       = Ok Sample.movedResponse
    /\ otils.StatusOK (http.StatusCode Sample.movedResponse) = false
    /\ fst (SubscribeToRepo Sample.Time Sample.Time_UnmarshalJSON
              Sample.Time_DeepEqual Sample.DefaultTransport Sample.follow
              (Sample.client Sample.moved) Sample.rsr Sample.world0)
       = (Some (mkSubscription 12345678
                  "https://api.github.com/repos/orijtech/gcla/hooks/12345678"
                  "https://api.github.com/repos/orijtech/gcla/hooks/12345678/test"
                  "https://api.github.com/repos/orijtech/gcla/hooks/12345678/pings"
                  "web" (Some ["push"; "pull_request"]) true
                  (Some (mkPayloadConfig "https://hooks.orijtech/gcla-test"
                           "json"))
                  (Some "2019-06-03T00:57:16Z") (Some "2019-06-03T00:57:16Z")),
          None)
    /\ length
         (http.trips
            (snd (SubscribeToRepo Sample.Time Sample.Time_UnmarshalJSON
                    Sample.Time_DeepEqual Sample.DefaultTransport
                    Sample.follow (Sample.client Sample.moved) Sample.rsr
                    Sample.world0)))
       = 2%nat.
Proof.
  eexists. split; [vm_compute; reflexivity|].
  split; [vm_compute; reflexivity|]. split; [reflexivity|].
  split; vm_compute; reflexivity.
Qed.



(** A delivery to [/ping] whose body is not JSON. *)
Lemma pong_bad_request_witness :
  serve Sample.Time Sample.Time_UnmarshalJSON "/ping" (Sample.delivery "x")
  = (400,
     Error (SyntaxError "invalid character 'x' looking for beginning of value" 1)
     +:+ String "010" EmptyString).
Proof.
  eapply (pong_bad_request Sample.Time Sample.Time_UnmarshalJSON).
  - vm_compute. reflexivity.
  - vm_compute. reflexivity.
Defined.

(** C7, as stated, fails on that delivery: the body of the answer is not
    the message of the error, it is one byte longer. *)
Lemma pong_bad_request_counterexample :
  http.ioutil_ReadAll (http.Body (Sample.delivery "x")) = ("x", None)
  /\ decode.Unmarshal (decode_pingPayload Sample.Time Sample.Time_UnmarshalJSON)
       "x" (zeroPingPayload Sample.Time)
     = Err (SyntaxError "invalid character 'x' looking for beginning of value" 1)
  /\ serve Sample.Time Sample.Time_UnmarshalJSON "/ping" (Sample.delivery "x")
     <> (400,
         Error (SyntaxError
                  "invalid character 'x' looking for beginning of value" 1)).
Proof.
  split; [reflexivity|]. split; [vm_compute; reflexivity|].
  vm_compute. discriminate.
Qed.

(** A delivery to [/ping] with the empty object for a body. *)
Lemma pong_ok_witness :
  serve Sample.Time Sample.Time_UnmarshalJSON "/ping" (Sample.delivery "{}")
  = (200, EmptyString).
Proof.
  eapply (pong_ok Sample.Time Sample.Time_UnmarshalJSON).
  - vm_compute. reflexivity.
  - vm_compute. reflexivity.
Defined.

(* --------------------------------------------------------------------- *)
(** *** The further properties on the data of [Sample] *)

(** The example of the package against a server that cannot be
    reached. *)
Lemma SubscribeToRepo_transport_error_witness :
  exists (req : http.Request) (u : string),
    SubscribeToRepo Sample.Time Sample.Time_UnmarshalJSON
      Sample.Time_DeepEqual Sample.DefaultTransport Sample.follow
      (Sample.client Sample.refused) Sample.rsr Sample.world0
    = ((None,
        Some (url_Error "Post" u
                (foreignError
                   "dial tcp 140.82.112.6:443: connection refused"))),
       http.mkWorld
         (http.sent Sample.world0
          ++ [withHeaders (Sample.client Sample.refused) req])
         (http.trips Sample.world0
          ++ [withHeaders (Sample.client Sample.refused) req])).
Proof.
  eexists.
  eapply (SubscribeToRepo_transport_error Sample.Time
            Sample.Time_UnmarshalJSON Sample.Time_DeepEqual
            Sample.DefaultTransport Sample.follow).
  - vm_compute. reflexivity.
  - vm_compute. reflexivity.
Defined.

Lemma SubscribeToRepo_read_error_witness :
  fst (SubscribeToRepo Sample.Time Sample.Time_UnmarshalJSON
         Sample.Time_DeepEqual Sample.DefaultTransport Sample.follow
         (Sample.client Sample.truncated) Sample.rsr Sample.world0)
  = (None, Some (foreignError "unexpected EOF")).
Proof.
  eapply (SubscribeToRepo_read_error Sample.Time Sample.Time_UnmarshalJSON
            Sample.Time_DeepEqual Sample.DefaultTransport Sample.follow).
  - vm_compute. reflexivity.
  - vm_compute. reflexivity.
  - vm_compute. reflexivity.
  - vm_compute. reflexivity.
Defined.

Lemma SubscribeToRepo_decode_error_witness :
  fst (SubscribeToRepo Sample.Time Sample.Time_UnmarshalJSON
         Sample.Time_DeepEqual Sample.DefaultTransport Sample.follow
         (Sample.client Sample.notJSON) Sample.rsr Sample.world0)
  = (None,
     Some (SyntaxError
             "invalid character '<' looking for beginning of value" 1)).
Proof.
  eapply (SubscribeToRepo_decode_error Sample.Time Sample.Time_UnmarshalJSON
            Sample.Time_DeepEqual Sample.DefaultTransport Sample.follow).
  - vm_compute. reflexivity.
  - vm_compute. reflexivity.
  - vm_compute. reflexivity.
  - vm_compute. reflexivity.
  - vm_compute. reflexivity.
Defined.

Lemma NewClientFromEnv_client_witness :
  apiKey (mkClient None "s3cr3t") = os_Getenv Sample.env gclaEnvKey
  /\ apiKey (mkClient None "s3cr3t") <> EmptyString
  /\ transport Sample.DefaultTransport (mkClient None "s3cr3t")
     = Sample.DefaultTransport
  /\ exists issued : list http.Request,
       http.sent
         (snd (SubscribeToRepo Sample.Time Sample.Time_UnmarshalJSON
                 Sample.Time_DeepEqual Sample.DefaultTransport Sample.follow
                 (mkClient None "s3cr3t") Sample.rsr Sample.world0))
       = (http.sent Sample.world0 ++ issued)%list
       /\ forall r, In r issued ->
            http.Header_Values (http.Header_ r) "Authorization"
            = ["token " +:+ os_Getenv Sample.env gclaEnvKey].
Proof.
  apply (NewClientFromEnv_client Sample.Time Sample.Time_UnmarshalJSON
           Sample.Time_DeepEqual Sample.DefaultTransport Sample.follow Sample.env).
  vm_compute. reflexivity.
Defined.

Lemma pong_read_error_witness :
  serve Sample.Time Sample.Time_UnmarshalJSON "/ping" Sample.brokenDelivery
  = (400, Error (foreignError "unexpected EOF") +:+ String "010" EmptyString).
Proof.
  eapply (pong_read_error Sample.Time Sample.Time_UnmarshalJSON).
  vm_compute. reflexivity.
Defined.


Lemma SubscribeToRepo_ID_range_witness :
  0 <= Subscription_ID Sample.Time
         (mkSubscription 12345678
            "https://api.github.com/repos/orijtech/gcla/hooks/12345678"
            "https://api.github.com/repos/orijtech/gcla/hooks/12345678/test"
            "https://api.github.com/repos/orijtech/gcla/hooks/12345678/pings"
            "web" (Some ["push"; "pull_request"]) true
            (Some (mkPayloadConfig "https://hooks.orijtech/gcla-test" "json"))
            (Some "2019-06-03T00:57:16Z") (Some "2019-06-03T00:57:16Z"))
  < 2 ^ 64.
Proof.
  apply (SubscribeToRepo_ID_range Sample.Time Sample.Time_UnmarshalJSON
           Sample.Time_DeepEqual Sample.DefaultTransport Sample.follow
           (Sample.client Sample.created) Sample.rsr Sample.world0).
  vm_compute. reflexivity.
Defined.

Lemma Unmarshal_Marshal_echoes_witness :
  exists blob,
    Marshal_SubscribeRequest (Some Sample.config) = Ok blob
    /\ Unmarshal_Subscription Sample.Time Sample.Time_UnmarshalJSON blob
         (zeroSubscription Sample.Time)
       = Ok (echoed Sample.Time Sample.config).
Proof.
  apply (Unmarshal_Marshal_echoes Sample.Time Sample.Time_UnmarshalJSON).
  vm_compute. reflexivity.
Defined.

Lemma SubscribeToRepo_echo_witness :
  fst (SubscribeToRepo Sample.Time Sample.Time_UnmarshalJSON
         Sample.Time_DeepEqual Sample.DefaultTransport Sample.follow
         (mkClient (Some echoTransport) "s3cr3t")
         (mkRepoSubscribeRequest "orijtech" "gcla" (Some Sample.config))
         Sample.world0)
  = (Some (echoed Sample.Time Sample.config), None).
Proof.
  apply (SubscribeToRepo_echo Sample.Time Sample.Time_UnmarshalJSON
           Sample.Time_DeepEqual Sample.DefaultTransport Sample.follow).
  - vm_compute. reflexivity.
  - vm_compute. reflexivity.
  - vm_compute. reflexivity.
  - vm_compute. discriminate.
Defined.
